(** * SMART-on-FHIR server extension: the authorization handlers

    A shallow embedding of [jupyter_smart_on_fhir/server_extension.py]:
    the launch handler [SMARTAuthHandler], the login handler
    [SMARTLoginHandler] and the callback handler [SMARTCallbackHandler],
    together with the pieces of the Python and Tornado libraries they
    call ([hashlib.sha256], [base64.urlsafe_b64encode], [bytes.rstrip],
    [urllib.parse.urlencode], [RequestHandler.get_argument], ...).

    Python [str] and [bytes] values are both modelled by [string], read as
    the UTF-8 bytes of the text. *)

From Stdlib Require Import ZArith NArith Lia String Ascii.
From stdpp Require Import gmap strings list.

Local Open Scope N_scope.

(** ** Bytes and text *)

Module Text.

Definition bytes_of (s : string) : list N :=
  map N_of_ascii (list_ascii_of_string s).

(** [all p s]: every character of [s] satisfies [p]. *)
Fixpoint all (p : ascii → bool) (s : string) : bool :=
  match s with
  | EmptyString => true
  | String c r => p c && all p r
  end.

(** [sep.join(parts)] *)
Fixpoint join (sep : string) (parts : list string) : string :=
  match parts with
  | [] => EmptyString
  | [p] => p
  | p :: rest => p +:+ sep +:+ join sep rest
  end.

Definition is_empty (s : string) : bool :=
  match s with EmptyString => true | _ => false end.

(** [s.rstrip(c)] for a one-character strip set. *)
Fixpoint rstrip (c : ascii) (s : string) : string :=
  match s with
  | EmptyString => EmptyString
  | String a r =>
      match rstrip c r with
      | EmptyString => if Ascii.eqb a c then EmptyString else String a EmptyString
      | r' => String a r'
      end
  end.

(** [s.lstrip(c)] for a one-character strip set. *)
Fixpoint lstrip (c : ascii) (s : string) : string :=
  match s with
  | EmptyString => EmptyString
  | String a r => if Ascii.eqb a c then lstrip c r else s
  end.

(** [s.startswith(p)] *)
Fixpoint startswith (p s : string) : bool :=
  match p with
  | EmptyString => true
  | String a p' =>
      match s with
      | EmptyString => false
      | String b s' => Ascii.eqb a b && startswith p' s'
      end
  end.

Fixpoint last_is (c : ascii) (s : string) : bool :=
  match s with
  | EmptyString => false
  | String a EmptyString => Ascii.eqb a c
  | String _ r => last_is c r
  end.

(** The white space of [str.isspace], which is what [str.strip()]
    strips, by the UTF-8 bytes of each character. One byte: U+0009 to
    U+000D and U+001C to U+0020. *)
Definition space1 (a : N) : bool :=
  ((9 <=? a) && (a <=? 13)) || ((28 <=? a) && (a <=? 32)).

(** Two bytes: U+0085 and U+00A0. *)
Definition space2 (a b : N) : bool :=
  (a =? 194) && ((b =? 133) || (b =? 160)).

(** Three bytes: U+1680, U+2000 to U+200A, U+2028, U+2029, U+202F,
    U+205F and U+3000. No white space character takes four bytes. *)
Definition space3 (a b c : N) : bool :=
  ((a =? 225) && (b =? 154) && (c =? 128))
  || ((a =? 226) && (b =? 128)
      && (((128 <=? c) && (c <=? 138)) || (c =? 168) || (c =? 169) || (c =? 175)))
  || ((a =? 226) && (b =? 129) && (c =? 159))
  || ((a =? 227) && (b =? 128) && (c =? 128)).

(** [t] is one white space character. *)
Definition is_space (t : string) : bool :=
  match t with
  | String a EmptyString => space1 (N_of_ascii a)
  | String a (String b EmptyString) => space2 (N_of_ascii a) (N_of_ascii b)
  | String a (String b (String c EmptyString)) =>
      space3 (N_of_ascii a) (N_of_ascii b) (N_of_ascii c)
  | _ => false
  end.

(** [s.lstrip()]: the white space characters [s] begins with go. *)
Fixpoint lstrip_space (s : string) : string :=
  match s with
  | EmptyString => EmptyString
  | String a r =>
      if space1 (N_of_ascii a) then lstrip_space r
      else
        match r with
        | EmptyString => s
        | String b r' =>
            if space2 (N_of_ascii a) (N_of_ascii b) then lstrip_space r'
            else
              match r' with
              | EmptyString => s
              | String c r'' =>
                  if space3 (N_of_ascii a) (N_of_ascii b) (N_of_ascii c)
                  then lstrip_space r'' else s
              end
        end
  end.

(** [s.rstrip()]: the white space characters [s] ends with go. What is
    left of the rest never ends with one, so a character in front of it
    makes a text that ends with white space only by being one. *)
Fixpoint rstrip_space (s : string) : string :=
  match s with
  | EmptyString => EmptyString
  | String a r =>
      let t := String a (rstrip_space r) in
      if is_space t then EmptyString else t
  end.

(** [s.strip()] *)
Definition strip (s : string) : string := rstrip_space (lstrip_space s).

Fixpoint map_chars (f : ascii → ascii) (s : string) : string :=
  match s with
  | EmptyString => EmptyString
  | String a r => String (f a) (map_chars f r)
  end.

(** [s.split(c)] *)
Fixpoint split (c : ascii) (s : string) : list string :=
  match s with
  | EmptyString => [EmptyString]
  | String a r =>
      if Ascii.eqb a c then EmptyString :: split c r
      else match split c r with
           | seg :: segs => String a seg :: segs
           | [] => [String a EmptyString]
           end
  end.

(** [c.lower()] on one byte: an ASCII capital becomes the small
    letter. *)
Definition lower (c : ascii) : ascii :=
  let n := N_of_ascii c in
  if (65 <=? n) && (n <=? 90) then ascii_of_N (n + 32) else c.

End Text.

(** ** [hashlib.sha256]

    FIPS 180-4 on 32-bit words held in [N]; every addition is reduced
    modulo [2^32] and rotations are composed from the two shifts. The
    round constants are derived from the first 64 primes as the standard
    defines them. *)

Module SHA256.

Definition two32 : N := 2 ^ 32.

Definition add32 (a b : N) : N := (a + b) mod two32.

Definition rotr (n x : N) : N :=
  N.lor (N.shiftr x n) ((N.shiftl x (32 - n)) mod two32).

Definition lnot32 (x : N) : N := N.lxor x (two32 - 1).

Definition Ch (x y z : N) : N := N.lxor (N.land x y) (N.land (lnot32 x) z).
Definition Maj (x y z : N) : N :=
  N.lxor (N.land x y) (N.lxor (N.land x z) (N.land y z)).
Definition Sigma0 (x : N) : N := N.lxor (rotr 2 x) (N.lxor (rotr 13 x) (rotr 22 x)).
Definition Sigma1 (x : N) : N := N.lxor (rotr 6 x) (N.lxor (rotr 11 x) (rotr 25 x)).
Definition sigma0 (x : N) : N := N.lxor (rotr 7 x) (N.lxor (rotr 18 x) (N.shiftr x 3)).
Definition sigma1 (x : N) : N := N.lxor (rotr 17 x) (N.lxor (rotr 19 x) (N.shiftr x 10)).

Definition primes64 : list N :=
  [2; 3; 5; 7; 11; 13; 17; 19; 23; 29; 31; 37; 41; 43; 47; 53;
   59; 61; 67; 71; 73; 79; 83; 89; 97; 101; 103; 107; 109; 113; 127; 131;
   137; 139; 149; 151; 157; 163; 167; 173; 179; 181; 191; 193; 197; 199;
   211; 223; 227; 229; 233; 239; 241; 251; 257; 263; 269; 271; 277; 281;
   283; 293; 307; 311].

(** Integer cube root by bisection on the bits [b-1 .. 0]. *)
Fixpoint icbrt_bits (b : nat) (n r : N) : N :=
  match b with
  | O => r
  | S b' =>
      let r' := r + 2 ^ N.of_nat b' in
      icbrt_bits b' n (if r' * r' * r' <=? n then r' else r)
  end.

Definition frac_cbrt32 (p : N) : N := icbrt_bits 36 (p * 2 ^ 96) 0 mod two32.
Definition frac_sqrt32 (p : N) : N := N.sqrt (p * 2 ^ 64) mod two32.

Definition K : list N := Eval vm_compute in map frac_cbrt32 primes64.
Definition H0 : list N := Eval vm_compute in map frac_sqrt32 (take 8 primes64).

(** Big-endian bytes of [x], [n] of them. *)
Fixpoint be_bytes (n : nat) (x : N) : list N :=
  match n with
  | O => []
  | S n' => be_bytes n' (x / 256) ++ [x mod 256]
  end.

Definition be_word (bs : list N) : N := fold_left (λ acc b, acc * 256 + b) bs 0.

Definition pad (msg : list N) : list N :=
  let len := N.of_nat (length msg) in
  let zeros := N.to_nat ((64 - (len + 9) mod 64) mod 64) in
  msg ++ [128] ++ replicate zeros 0 ++ be_bytes 8 (8 * len).

Fixpoint chunks (fuel : nat) (sz : nat) (l : list N) : list (list N) :=
  match fuel with
  | O => []
  | S fuel' =>
      match l with
      | [] => []
      | _ => take sz l :: chunks fuel' sz (drop sz l)
      end
  end.

Definition words_of_block (block : list N) : list N :=
  map be_word (chunks 16 4 block).

(** Message schedule: extends the 16 block words to 64. *)
Fixpoint schedule (n : nat) (w : list N) : list N :=
  match n with
  | O => w
  | S n' =>
      let t := length w in
      let at_ (i : nat) := nth (t - i)%nat w 0 in
      schedule n' (w ++ [add32 (add32 (sigma1 (at_ 2%nat)) (at_ 7%nat))
                                (add32 (sigma0 (at_ 15%nat)) (at_ 16%nat))])
  end.

Record regs := Regs { ra : N; rb : N; rc : N; rd : N; re : N; rf : N; rg : N; rh : N }.

Definition round (s : regs) (kw : N * N) : regs :=
  let '(k, w) := kw in
  let t1 := add32 (add32 (add32 (rh s) (Sigma1 (re s))) (Ch (re s) (rf s) (rg s)))
                  (add32 k w) in
  let t2 := add32 (Sigma0 (ra s)) (Maj (ra s) (rb s) (rc s)) in
  Regs (add32 t1 t2) (ra s) (rb s) (rc s) (add32 (rd s) t1) (re s) (rf s) (rg s).

Definition compress (s : regs) (block : list N) : regs :=
  let w := schedule 48 (words_of_block block) in
  let s' := fold_left round (zip K w) s in
  Regs (add32 (ra s) (ra s')) (add32 (rb s) (rb s')) (add32 (rc s) (rc s'))
       (add32 (rd s) (rd s')) (add32 (re s) (re s')) (add32 (rf s) (rf s'))
       (add32 (rg s) (rg s')) (add32 (rh s) (rh s')).

Definition init : regs :=
  match H0 with
  | [a; b; c; d; e; f; g; h] => Regs a b c d e f g h
  | _ => Regs 0 0 0 0 0 0 0 0
  end.

(** [hashlib.sha256(msg).digest()], as a list of 32 bytes. *)
Definition digest (msg : list N) : list N :=
  let padded := pad msg in
  let s := fold_left compress (chunks (length padded) 64 padded) init in
  concat (map (be_bytes 4) [ra s; rb s; rc s; rd s; re s; rf s; rg s; rh s]).

End SHA256.

(** ** [base64] *)

Module Base64.

(** The standard alphabet of [base64.b64encode]. *)
Definition sym (i : N) : ascii :=
  if i <? 26 then ascii_of_N (65 + i)
  else if i <? 52 then ascii_of_N (97 + (i - 26))
  else if i <? 62 then ascii_of_N (48 + (i - 52))
  else if i =? 62 then "+"%char
  else "/"%char.

Definition c1 (a : N) : ascii := sym (a / 4 mod 64).
Definition c2 (a b : N) : ascii := sym ((a mod 4) * 16 + (b / 16) mod 16).
Definition c3 (b c : N) : ascii := sym ((b mod 16) * 4 + (c / 64) mod 4).
Definition c4 (c : N) : ascii := sym (c mod 64).

Fixpoint b64encode (l : list N) : string :=
  match l with
  | [] => EmptyString
  | [a] => String (c1 a) (String (c2 a 0) "==")
  | [a; b] => String (c1 a) (String (c2 a b) (String (c3 b 0) "="))
  | a :: b :: c :: rest =>
      String (c1 a) (String (c2 a b) (String (c3 b c) (String (c4 c) (b64encode rest))))
  end.

(** [bytes.maketrans(b'+/', b'-_')] *)
Definition urlsafe_translation (c : ascii) : ascii :=
  if Ascii.eqb c "+" then "-"%char
  else if Ascii.eqb c "/" then "_"%char
  else c.

(** [base64.urlsafe_b64encode(s)] *)
Definition urlsafe_b64encode (l : list N) : string :=
  Text.map_chars urlsafe_translation (b64encode l).

End Base64.


(** ** [urllib.parse] *)

Module Urllib.

Definition is_digit (c : ascii) : bool :=
  let n := N_of_ascii c in (48 <=? n) && (n <=? 57).

Definition is_alnum (c : ascii) : bool :=
  let n := N_of_ascii c in
  is_digit c || ((65 <=? n) && (n <=? 90)) || ((97 <=? n) && (n <=? 122)).

(** [_ALWAYS_SAFE]: letters, digits and [_.-~]. *)
Definition always_safe (c : ascii) : bool :=
  is_alnum c || Ascii.eqb c "_" || Ascii.eqb c "." || Ascii.eqb c "-" || Ascii.eqb c "~".

Definition hex_digit (n : N) : ascii :=
  if n <? 10 then ascii_of_N (48 + n) else ascii_of_N (55 + n).

Definition percent (c : ascii) : string :=
  let n := N_of_ascii c in
  String "%" (String (hex_digit (n / 16)) (String (hex_digit (n mod 16)) EmptyString)).

(** One byte of [quote_plus(s)] with the default empty [safe]: a safe
    byte stays, a space becomes [+], anything else is percent-encoded. *)
Definition quote_plus_char (c : ascii) : string :=
  if always_safe c then String c EmptyString
  else if Ascii.eqb c " " then "+"
  else percent c.

Fixpoint quote_plus (s : string) : string :=
  match s with
  | EmptyString => EmptyString
  | String c r => quote_plus_char c +:+ quote_plus r
  end.

(** The values the handlers put in the dictionaries they pass to
    [urlencode]. *)
Inductive pyval :=
| PyStr (s : string)
| PyBytes (b : string)
| PyNone.

(** The value branch of [urlencode]: bytes are quoted as they are, any
    other value through [str(v)], which is the text itself for a [str] and
    the word [None] for [None]. *)
Definition quote_value (v : pyval) : string :=
  match v with
  | PyBytes b => quote_plus b
  | PyStr s => quote_plus s
  | PyNone => quote_plus "None"
  end.

Definition encode_item (kv : string * pyval) : string :=
  quote_plus (fst kv) +:+ "=" +:+ quote_value (snd kv).

(** [urlencode(query)] for a dict, given as its items in insertion order. *)
Definition urlencode (query : list (string * pyval)) : string :=
  Text.join "&" (map encode_item query).

(** Prefix of [s] before the first character satisfying [stop]. *)
Fixpoint until (stop : ascii → bool) (s : string) : string :=
  match s with
  | EmptyString => EmptyString
  | String c r => if stop c then EmptyString else String c (until stop r)
  end.

(** [s] from its first character satisfying [stop] on. *)
Fixpoint from (stop : ascii → bool) (s : string) : string :=
  match s with
  | EmptyString => EmptyString
  | String c r => if stop c then s else from stop r
  end.

Definition ends_netloc (c : ascii) : bool :=
  Ascii.eqb c "/" || Ascii.eqb c "?" || Ascii.eqb c "#".

(** Scheme and network location of an absolute URL, [scheme://netloc],
    the scheme in small letters as [urlsplit] gives it. *)
Definition url_origin (url : string) : string :=
  let scheme := Text.map_chars Text.lower (until (Ascii.eqb ":") url) in
  let rest := from (Ascii.eqb ":") url in
  match rest with
  | String _ (String "/" (String "/" r)) => scheme +:+ "://" +:+ until ends_netloc r
  | _ => scheme +:+ rest
  end.

(** Path of an absolute URL, without query and fragment. *)
Definition url_path (url : string) : string :=
  match from (Ascii.eqb ":") url with
  | String _ (String "/" (String "/" r)) =>
      until (λ c, Ascii.eqb c "?" || Ascii.eqb c "#") (from ends_netloc r)
  | _ => EmptyString
  end.

(** The loop of [urljoin] over the segments: [..] drops the segment
    before it, if there is one, and [.] is skipped. [resolved] is the
    resolved path so far, its last segment first. *)
Fixpoint resolve (segments resolved : list string) : list string :=
  match segments with
  | [] => resolved
  | seg :: rest =>
      if String.eqb seg ".." then resolve rest (tail resolved)
      else if String.eqb seg "." then resolve rest resolved
      else resolve rest (seg :: resolved)
  end.

(** The path [urljoin] makes of the segments: a final [.] or [..]
    leaves a trailing slash, and an empty path is [/]. *)
Definition resolved_path (segments : list string) : string :=
  let final := List.last segments EmptyString in
  let resolved := rev (resolve segments []) in
  let resolved :=
    if String.eqb final "." || String.eqb final ".." then resolved ++ [EmptyString]
    else resolved in
  match Text.join "/" resolved with
  | EmptyString => "/"
  | p => p
  end.

(** The segments of the base path that count for a relative reference:
    all but the last, unless the path ends in a slash. *)
Definition base_parts (bpath : string) : list string :=
  let parts := Text.split "/" bpath in
  if Text.is_empty (List.last parts EmptyString) then parts else removelast parts.

(** [segments[1:-1] = filter(None, segments[1:-1])] *)
Definition filter_inner (segments : list string) : list string :=
  match segments with
  | first :: (_ :: _) as rest =>
      first :: filter (λ s, Text.is_empty s = false) (removelast rest)
            ++ [List.last rest EmptyString]
  | _ => segments
  end.

(** [urljoin(base, url)] for a base [scheme://netloc/path?query#fragment]
    and a reference that is a path, with no scheme, parameters, query or
    fragment of its own. An absolute path replaces the path of [base]; a
    relative one is merged with the directory of the base path; dot
    segments are resolved in both. *)
Definition urljoin (base url : string) : string :=
  if Text.is_empty base then url
  else if Text.is_empty url then base
  else
    let segments :=
      if Text.startswith "/" url then Text.split "/" url
      else filter_inner (base_parts (url_path base) ++ Text.split "/" url) in
    let path := resolved_path segments in
    url_origin base +:+ (if Text.startswith "/" path then path else "/" +:+ path).

End Urllib.

(** ** [jupyter_server.utils] *)

Module JupyterUtils.

Definition strip_slashes (s : string) : string := Text.rstrip "/" (Text.lstrip "/" s).

(** [url_path_join] over its argument list. *)
Definition url_path_join (pieces : list string) : string :=
  let initial := Text.startswith "/" (hd EmptyString pieces) in
  let final := Text.last_is "/" (List.last pieces EmptyString) in
  let stripped := map strip_slashes pieces in
  let result := Text.join "/" (filter (λ s, Text.is_empty s = false) stripped) in
  let result := if initial then "/" +:+ result else result in
  let result := if final then result +:+ "/" else result in
  if String.eqb result "//" then "/" else result.

End JupyterUtils.

(** ** [json] *)

Module Json.

(** A Python value as [json.loads] returns it: [None], a [bool], an
    [int], a [float] (known by whether it is zero, and by its text), a
    [str], a [list], or a [dict] given by its items, one for each key. *)
#[local] Unset Elimination Schemes.
Inductive value :=
| Null
| Bool (b : bool)
| Int (z : Z)
| Float (zero : bool) (text : string)
| Str (s : string)
| Array (items : list value)
| Object (items : list (string * value)).
#[local] Set Elimination Schemes.

(** [bool(v)], the test of [if v:] and [if not v:]. *)
Definition truthy (v : value) : bool :=
  match v with
  | Null => false
  | Bool b => b
  | Int z => negb (Z.eqb z 0)
  | Float zero _ => negb zero
  | Str s => negb (Text.is_empty s)
  | Array items => match items with [] => false | _ => true end
  | Object items => match items with [] => false | _ => true end
  end.

(** The value of [key] among the items of a [dict]. *)
Fixpoint lookup (key : string) (items : list (string * value)) : option value :=
  match items with
  | [] => None
  | (k, v) :: rest => if String.eqb k key then Some v else lookup key rest
  end.

End Json.

(** ** The handler framework (Tornado, Jupyter server) *)

Module Tornado.

(** [tornado.httputil.HTTPServerRequest]: [arguments] maps a query
    argument name to the list of its values, in the order received. *)
Record HTTPServerRequest := {
  protocol : string;
  host : string;
  uri : string;
  arguments : gmap string (list string);
}.

(** [request.full_url()] *)
Definition full_url (r : HTTPServerRequest) : string :=
  protocol r +:+ "://" +:+ host r +:+ uri r.

(** The outbound request given to [AsyncHTTPClient().fetch]. *)
Record HTTPRequest := {
  req_url : string;
  req_method : string;
  req_headers : list (string * string);
  req_body : string;
}.

(** What a fetch can come back with: a reply body, an
    [HTTPClientError] (whose [response] may be absent, as for a timeout),
    or some other exception of the transport. *)
Inductive FetchResult :=
| FetchReply (body : string)
| FetchHTTPClientError (code : N) (response_body : option string)
| FetchFailure (name : string).

(** Exceptions the handlers raise or let through; [HTTPError] is
    [tornado.web.HTTPError] with the status and the message the handler
    gives it. [DiscoveryError] is the error of the Issuer Discoverer of the
    specification; the handlers have no [except] clause for it. *)
Inductive exn :=
| HTTPError (status_code : N) (message : string)
| MissingArgumentError (arg_name : string)
| HTTPClientError (code : N)
| KeyError (key : string)
| AttributeError (message : string)
| TypeError
| ValueError
| DiscoveryError
| OtherError (name : string).

(** Modelled from the spec: the status answered for a [DiscoveryError]
    ([auth.py] is not part of the sources at hand). Section 4.1 has the end
    user see a 4xx-class error; 400 stands for that class. *)
Definition discovery_error_status : N := 400.

(** The status Tornado answers with when a handler raises: the status
    of a [tornado.web.HTTPError] ([MissingArgumentError] is one, with
    400), and 500 for every other exception of Python and of the HTTP
    client. *)
Definition http_status (e : exn) : N :=
  match e with
  | HTTPError status _ => status
  | MissingArgumentError _ => 400
  | DiscoveryError => discovery_error_status
  | _ => 500
  end.

(** What a handler does to the outside, in program order. *)
Inductive Event :=
| SetSecureCookie (name value : string)
| Redirect (status : N) (url : string)
| SetHeader (name value : string)
| Write (chunk : string)
| Fetch (req : HTTPRequest)
| HttpGet (url : string)
| LogError (message : string)
| SetEnviron (name value : string).

(** [SMARTConfig] of [auth.py], as far as the handlers read it: the
    three attributes [fhir_url], [auth_url] and [token_url]. *)
Record SMARTConfig := {
  fhir_url : string;
  auth_url : string;
  token_url : string;
}.

(** The process-wide [settings] dictionary. The keys written by
    [initialize_settings] and by the server are always there; the keys the
    handlers write ([launch], [smart_config], [next_url], [smart_token])
    may be absent, [launch] may hold [None], and [smart_token] holds
    whatever value the token endpoint gave for [access_token]. *)
Record Settings := {
  base_url : string;
  login_url : string;
  scopes : list string;
  client_id : string;
  smart_redirect_uri : string;
  smart_default_issuer : string;
  smart_default_launch_url : string;
  launch : option (option string);
  smart_config : option SMARTConfig;
  next_url : option string;
  smart_token : option Json.value;
}.

Definition set_launch (v : option string) (s : Settings) : Settings :=
  {| base_url := base_url s; login_url := login_url s; scopes := scopes s;
     client_id := client_id s; smart_redirect_uri := smart_redirect_uri s;
     smart_default_issuer := smart_default_issuer s;
     smart_default_launch_url := smart_default_launch_url s;
     launch := Some v; smart_config := smart_config s;
     next_url := next_url s; smart_token := smart_token s |}.

Definition set_smart_config (v : SMARTConfig) (s : Settings) : Settings :=
  {| base_url := base_url s; login_url := login_url s; scopes := scopes s;
     client_id := client_id s; smart_redirect_uri := smart_redirect_uri s;
     smart_default_issuer := smart_default_issuer s;
     smart_default_launch_url := smart_default_launch_url s;
     launch := launch s; smart_config := Some v;
     next_url := next_url s; smart_token := smart_token s |}.

Definition set_next_url (v : string) (s : Settings) : Settings :=
  {| base_url := base_url s; login_url := login_url s; scopes := scopes s;
     client_id := client_id s; smart_redirect_uri := smart_redirect_uri s;
     smart_default_issuer := smart_default_issuer s;
     smart_default_launch_url := smart_default_launch_url s;
     launch := launch s; smart_config := smart_config s;
     next_url := Some v; smart_token := smart_token s |}.

Definition set_smart_token (v : Json.value) (s : Settings) : Settings :=
  {| base_url := base_url s; login_url := login_url s; scopes := scopes s;
     client_id := client_id s; smart_redirect_uri := smart_redirect_uri s;
     smart_default_issuer := smart_default_issuer s;
     smart_default_launch_url := smart_default_launch_url s;
     launch := launch s; smart_config := smart_config s;
     next_url := next_url s; smart_token := Some v |}.

(** The handler object of one request: the request, the cookies whose
    signature verifies (what [get_signed_cookie] can return) and the
    authenticated user, if any. *)
Record RequestHandler := {
  request : HTTPServerRequest;
  signed_cookies : gmap string string;
  current_user : option string;
}.

(** *** Handler computations

    A handler reads and writes the settings, emits events and either
    returns or raises; what it wrote and emitted before raising stays. A
    run is one request from start to end: no other request is interleaved
    at its [await]. *)

Inductive result (A : Type) :=
| Returned (a : A)
| Raised (e : exn).
Arguments Returned {A} a.
Arguments Raised {A} e.

Record Run (A : Type) := mkRun {
  final : Settings;
  trace : list Event;
  outcome : result A;
}.
Arguments mkRun {A} final trace outcome.
Arguments final {A} r.
Arguments trace {A} r.
Arguments outcome {A} r.

Definition M (A : Type) : Type := Settings → Run A.

Definition ret {A} (a : A) : M A := λ s, mkRun s [] (Returned a).

Definition bind {A B} (m : M A) (f : A → M B) : M B :=
  λ s,
    let r := m s in
    match outcome r with
    | Raised e => mkRun (final r) (trace r) (Raised e)
    | Returned a =>
        let r' := f a (final r) in
        mkRun (final r') (trace r ++ trace r') (outcome r')
    end.

Definition raise {A} (e : exn) : M A := λ s, mkRun s [] (Raised e).
Definition emit (ev : Event) : M unit := λ s, mkRun s [ev] (Returned tt).
Definition settings : M Settings := λ s, mkRun s [] (Returned s).
Definition modify (f : Settings → Settings) : M unit := λ s, mkRun (f s) [] (Returned tt).

(** [d[key]] on a key that may be absent. *)
Definition item {A} (key : string) (v : option A) : M A :=
  match v with
  | Some a => ret a
  | None => raise (KeyError key)
  end.

Definition when (b : bool) (m : M unit) : M unit := if b then m else ret tt.

Declare Scope handler_scope.
Delimit Scope handler_scope with handler.
Notation "x <- m ;; k" := (bind m (λ x, k))
  (at level 100, m at next level, right associativity) : handler_scope.
Notation "m ;; k" := (bind m (λ _, k))
  (at level 100, right associativity) : handler_scope.
Local Open Scope handler_scope.

(** [_remove_control_chars_regex]: the bytes 0-8 and 14-31 become a
    space. *)
Definition remove_control_char (c : ascii) : ascii :=
  let n := N_of_ascii c in
  if (n <=? 8) || ((14 <=? n) && (n <=? 31)) then " "%char else c.

(** [self.get_arguments(name)]: every value with control characters
    replaced and then stripped with [str.strip()]. The values are the
    decoded texts; a value that is not UTF-8, which Tornado refuses with a
    400 of its own before the handler sees it, is outside the model. *)
Definition get_arguments (h : RequestHandler) (name : string) : list string :=
  map (λ v, Text.strip (Text.map_chars remove_control_char v))
      (default [] (arguments (request h) !! name)).

(** The last value of the argument, if it has one. *)
Definition last_argument (h : RequestHandler) (name : string) : option string :=
  List.last (map Some (get_arguments h name)) None.

(** [self.get_argument(name)]: raises [MissingArgumentError] without a
    value. *)
Definition get_argument (h : RequestHandler) (name : string) : M string :=
  match last_argument h name with
  | Some v => ret v
  | None => raise (MissingArgumentError name)
  end.

(** [self.get_argument(name, default)] *)
Definition get_argument_default {A} (h : RequestHandler) (name : string)
    (inj : string → A) (dflt : A) : A :=
  match last_argument h name with
  | Some v => inj v
  | None => dflt
  end.

(** [self.get_signed_cookie(name)] *)
Definition get_signed_cookie (h : RequestHandler) (name : string) : option string :=
  signed_cookies h !! name.

(** [self.redirect(url)]: a 302. The URL is taken to be one that
    Tornado accepts as a header value, with no control character in it. *)
Definition redirect (url : string) : M unit := emit (Redirect 302 url).

Fixpoint contains_char (c : ascii) (s : string) : bool :=
  match s with
  | EmptyString => false
  | String a r => Ascii.eqb a c || contains_char c r
  end.

(** [urlsplit(url).scheme] is not empty: a letter, then letters,
    digits and [+-.], up to a colon. *)
Definition has_scheme (url : string) : bool :=
  let scheme := Urllib.until (Ascii.eqb ":") url in
  negb (Text.is_empty (Urllib.from (Ascii.eqb ":") url))
  && match scheme with
     | EmptyString => false
     | String c _ => Urllib.is_alnum c && negb (Urllib.is_digit c)
     end
  && Text.all (λ c, Urllib.is_alnum c || Ascii.eqb c "+" || Ascii.eqb c "-" || Ascii.eqb c ".")
              scheme.

(** [@tornado.web.authenticated] on a GET method: an anonymous request is
    redirected to the login URL, with the page to come back to. *)
Definition authenticated (method : RequestHandler → M unit) (h : RequestHandler) : M unit :=
  match current_user h with
  | Some _ => method h
  | None =>
      s <- settings ;;
      let url := login_url s in
      let next := if has_scheme url then full_url (request h) else uri (request h) in
      redirect (if contains_char "?" url then url
                else url +:+ "?" +:+ Urllib.urlencode [("next", Urllib.PyStr next)])
  end.

(** [os.environ[name] = value]: the value has to be a [str]
    ([TypeError] otherwise) without a NUL character in it ([ValueError]
    otherwise). *)
Definition environ_set (name : string) (value : Json.value) : M unit :=
  match value with
  | Json.Str text =>
      if contains_char (ascii_of_N 0) text then raise ValueError
      else emit (SetEnviron name text)
  | _ => raise TypeError
  end.

End Tornado.

Export Tornado.
Local Open Scope handler_scope.

(** ** What the handlers reach outside the process *)

(** The dictionary returned by [generate_state()], as far as the login
    handler reads it. *)
Record GeneratedState := {
  state_id : string;
  state_next_url : option string;
}.

(** Modelled from the spec: the judgement of the Issuer Discoverer on a
    FHIR base URL, that it is a well-formed absolute URL ([auth.py] is not
    part of the sources at hand). Section 4.1 names the check and does not
    define it, so it is left open here. *)
Record Discoverer := {
  well_formed_absolute_url : string → bool;
}.

(** The environment of a handler run: the Issuer Discoverer, the
    issuer's published configuration, the token endpoint, [json.loads] on
    its reply (the value parsed, or nothing when the body is not JSON) and
    the random material drawn at login, the result of [generate_state()]
    and of [secrets.token_urlsafe(53)]. *)
Record World := {
  discoverer : Discoverer;
  smart_configuration : string → option (string * string);
  fetch : HTTPRequest → FetchResult;
  json_loads : string → option Json.value;
  generate_state : GeneratedState;
  token_urlsafe : string;
}.

(** ** [jupyter_smart_on_fhir.auth] *)

Module Auth.

(** Modelled from the spec: [SMARTConfig.from_url], the Issuer
    Discoverer of section 4.1 ([auth.py] is not part of the sources at
    hand). The URL is validated before any network call; the well-known
    SMART configuration is fetched with one GET; a malformed URL, a failed
    fetch or a document lacking an endpoint signals [DiscoveryError]. *)
Definition from_url (w : World) (fhir_url request_url : string) : M SMARTConfig :=
  if well_formed_absolute_url (discoverer w) fhir_url then
    let well_known := fhir_url +:+ "/.well-known/smart-configuration" in
    emit (HttpGet well_known) ;;
    match smart_configuration w well_known with
    | Some (authorization_endpoint, token_endpoint) =>
        ret {| fhir_url := fhir_url;
               auth_url := authorization_endpoint;
               token_url := token_endpoint |}
    | None => raise DiscoveryError
    end
  else raise DiscoveryError.

End Auth.

(** ** [server_extension.py] *)

Definition smart_path : string := "/smart".
Definition login_path : string := "/smart/login".
Definition callback_path : string := "/smart/oauth_callback".

(** The expression both the login and the callback handler use for
    [redirect_uri]: the configured value, or else the callback path joined
    to the URL of the current request. *)
Definition redirect_uri (h : RequestHandler) (s : Settings) : string :=
  if Text.is_empty (smart_redirect_uri s) then
    Urllib.urljoin (full_url (request h))
                   (JupyterUtils.url_path_join [base_url s; callback_path])
  else smart_redirect_uri s.

Module SMARTAuthHandler.

(** The body of [get]; the method the server routes to is
    [authenticated get]. *)
Definition get (w : World) (h : RequestHandler) : M unit :=
  s <- settings ;;
  let fhir_url := get_argument_default h "iss" id (smart_default_issuer s) in
  when (Text.is_empty fhir_url) (raise (HTTPError 400 "issuer (?iss=...) required")) ;;
  smart_config <- Auth.from_url w fhir_url (full_url (request h)) ;;
  let launch_url := get_argument_default h "launch" Some None in
  modify (set_launch launch_url) ;;
  modify (set_smart_config smart_config) ;;
  s <- settings ;;
  let token := default Json.Null (smart_token s) in
  if Json.truthy token then
    environ_set "SMART_TOKEN" token ;;
    emit (SetHeader "Content-Type" "text/plain") ;;
    emit (Write "Authorization success: Token persisted in $SMART_TOKEN")
  else
    modify (set_next_url (uri (request h))) ;;
    redirect (JupyterUtils.url_path_join [base_url s; login_path]).

End SMARTAuthHandler.

Module SMARTLoginHandler.

Definition pyval_of_launch (v : option string) : Urllib.pyval :=
  match v with
  | Some l => Urllib.PyStr l
  | None => Urllib.PyNone
  end.

(** [base64.urlsafe_b64encode(hashlib.sha256(code_verifier.encode("utf-8")).digest()).rstrip(b"=")] *)
Definition code_challenge_of (code_verifier : string) : string :=
  Text.rstrip "=" (Base64.urlsafe_b64encode (SHA256.digest (Text.bytes_of code_verifier))).

(** The dictionary [headers] of the login handler, in insertion order. *)
Definition headers (h : RequestHandler) (s : Settings) (cfg : SMARTConfig)
    (state : GeneratedState) (launch_hint : option string) (code_challenge : string)
    : list (string * Urllib.pyval) :=
  [ ("aud", Urllib.PyStr (fhir_url cfg));
    ("state", Urllib.PyStr (state_id state));
    ("launch", pyval_of_launch launch_hint);
    ("redirect_uri", Urllib.PyStr (redirect_uri h s));
    ("client_id", Urllib.PyStr (client_id s));
    ("code_challenge", Urllib.PyBytes code_challenge);
    ("code_challenge_method", Urllib.PyStr "S256");
    ("response_type", Urllib.PyStr "code");
    ("scope", Urllib.PyStr (Text.join " " (scopes s))) ].

(** The body of [get]; the method the server routes to is
    [authenticated get]. *)
Definition get (w : World) (h : RequestHandler) : M unit :=
  let state := generate_state w in
  emit (SetSecureCookie "state_id" (state_id state)) ;;
  match state_next_url state with
  | Some (String _ _ as n) => emit (SetSecureCookie "next_url" n)
  | _ => ret tt
  end ;;
  s <- settings ;;
  smart_config <- item "smart_config" (smart_config s) ;;
  let code_verifier := token_urlsafe w in
  emit (SetSecureCookie "code_verifier" code_verifier) ;;
  let code_challenge := code_challenge_of code_verifier in
  launch_hint <- item "launch" (launch s) ;;
  redirect (auth_url smart_config +:+ "?" +:+
            Urllib.urlencode (headers h s smart_config state launch_hint code_challenge)).

End SMARTLoginHandler.

Module SMARTCallbackHandler.

(** The dictionary [data] of [token_for_code], in insertion order. *)
Definition data (h : RequestHandler) (s : Settings) (code code_verifier : string)
    : list (string * Urllib.pyval) :=
  [ ("client_id", Urllib.PyStr (client_id s));
    ("grant_type", Urllib.PyStr "authorization_code");
    ("code", Urllib.PyStr code);
    ("code_verifier", Urllib.PyStr code_verifier);
    ("redirect_uri", Urllib.PyStr (redirect_uri h s)) ].

Definition token_request (token_url : string) (body : string) : HTTPRequest :=
  {| req_url := token_url;
     req_method := "POST";
     req_headers := [("Content-Type", "application/x-www-form-urlencoded")];
     req_body := body |}.

(** [token_for_code]. The signed cookies hold the text this server stored
    with [set_secure_cookie], so [.decode] gives that text back; a missing
    cookie is [None], on which [.decode] raises. The bodies of the token
    endpoint are the decoded texts. [json.loads(...)["access_token"]] is
    the value of that key when the reply is a JSON object, whatever the
    value is; it raises [KeyError] without the key and [TypeError] on a
    reply that is no object. *)
Definition token_for_code (w : World) (h : RequestHandler) (code : string)
    : M Json.value :=
  s <- settings ;;
  code_verifier <-
    match get_signed_cookie h "code_verifier" with
    | Some v => ret v
    | None => raise (AttributeError "'NoneType' object has no attribute 'decode'")
    end ;;
  let data := data h s code code_verifier in
  smart_config <- item "smart_config" (smart_config s) ;;
  let req := token_request (token_url smart_config) (Urllib.urlencode data) in
  emit (Fetch req) ;;
  match fetch w req with
  | FetchReply body =>
      match json_loads w body with
      | Some (Json.Object reply) => item "access_token" (Json.lookup "access_token" reply)
      | Some _ => raise TypeError
      | None => raise (OtherError "JSONDecodeError")
      end
  | FetchHTTPClientError status (Some body) =>
      emit (LogError ("Error fetching token: " +:+ body)) ;;
      raise (HTTPClientError status)
  | FetchHTTPClientError status None =>
      raise (AttributeError "'NoneType' object has no attribute 'body'")
  | FetchFailure name => raise (OtherError name)
  end.

(** The body of [get]; the method the server routes to is
    [authenticated get]. As in [token_for_code], [.decode] on the state
    cookie gives back the text that was stored. *)
Definition get (w : World) (h : RequestHandler) : M unit :=
  match arguments (request h) !! "error" with
  | Some _ => msg <- get_argument h "error" ;; raise (HTTPError 400 msg)
  | None => ret tt
  end ;;
  code <- get_argument h "code" ;;
  when (Text.is_empty code)
       (raise (HTTPError 400 "Error: no code in response from FHIR server")) ;;
  state_id <-
    match get_signed_cookie h "state_id" with
    | None => raise (HTTPError 400 "Error: missing state cookie")
    | Some v => ret v
    end ;;
  arg_state <- get_argument h "state" ;;
  when (Text.is_empty arg_state)
       (raise (HTTPError 400 "Error: missing state argument")) ;;
  when (negb (String.eqb arg_state state_id))
       (raise (HTTPError 400 "Error: state received from FHIR server does not match")) ;;
  token <- token_for_code w h code ;;
  modify (set_smart_token token) ;;
  s <- settings ;;
  next <- item "next_url" (next_url s) ;;
  redirect next.

End SMARTCallbackHandler.

(** ** The callback validation of the specification (section 4.4)

    The five checks of the state machine, in its order, stated on the
    request as the handler sees it. *)

Module CallbackSpec.

Inductive Failure :=
| IssuerError
| ProtocolError
| SessionExpired
| StateMismatch.

Inductive Check :=
| ErrorParamPresent
| CodeMissing
| StoredStateMissing
| StateParamMissing
| StateParamDiffers.

(** The FAILED variant the state machine attaches to each check. *)
Definition failure_of (c : Check) : Failure :=
  match c with
  | ErrorParamPresent => IssuerError
  | CodeMissing => ProtocolError
  | StoredStateMissing => SessionExpired
  | StateParamMissing => ProtocolError
  | StateParamDiffers => StateMismatch
  end.

Definition error_param_present (h : RequestHandler) : bool :=
  bool_decide (is_Some (arguments (request h) !! "error")).

(** A parameter is missing when the request has no value for it or an
    empty one. *)
Definition param_missing (h : RequestHandler) (name : string) : bool :=
  match last_argument h name with
  | Some v => Text.is_empty v
  | None => true
  end.

Definition stored_state_missing (h : RequestHandler) : bool :=
  bool_decide (get_signed_cookie h "state_id" = None).

Definition state_param_differs (h : RequestHandler) : bool :=
  bool_decide (last_argument h "state" ≠ get_signed_cookie h "state_id").

(** VALIDATING: the first check that fails, in the order of the state
    machine; [None] is the transition to EXCHANGING. *)
Definition first_failing_check (h : RequestHandler) : option Check :=
  if error_param_present h then Some ErrorParamPresent
  else if param_missing h "code" then Some CodeMissing
  else if stored_state_missing h then Some StoredStateMissing
  else if param_missing h "state" then Some StateParamMissing
  else if state_param_differs h then Some StateParamDiffers
  else None.

(** The exception with which the handler reports each failed check. *)
Definition reported (h : RequestHandler) (c : Check) : exn :=
  match c with
  | ErrorParamPresent =>
      match last_argument h "error" with
      | Some msg => HTTPError 400 msg
      | None => MissingArgumentError "error"
      end
  | CodeMissing =>
      match last_argument h "code" with
      | Some _ => HTTPError 400 "Error: no code in response from FHIR server"
      | None => MissingArgumentError "code"
      end
  | StoredStateMissing => HTTPError 400 "Error: missing state cookie"
  | StateParamMissing =>
      match last_argument h "state" with
      | Some _ => HTTPError 400 "Error: missing state argument"
      | None => MissingArgumentError "state"
      end
  | StateParamDiffers =>
      HTTPError 400 "Error: state received from FHIR server does not match"
  end.

(** The received code, once validation has passed. *)
Definition received_code (h : RequestHandler) : string :=
  default EmptyString (last_argument h "code").

(** EXCHANGING and what follows it in the handler: the token exchange
    for the received code, the token slot, the redirect. *)
Definition exchanging (w : World) (h : RequestHandler) : M unit :=
  token <- SMARTCallbackHandler.token_for_code w h (received_code h) ;;
  modify (set_smart_token token) ;;
  s <- settings ;;
  next <- item "next_url" (next_url s) ;;
  redirect next.

End CallbackSpec.

(** ** [base64url_no_pad] of the specification (section 4.2)

    The URL-safe alphabet applied to the 6-bit groups of the input, with
    no padding character ever produced. *)

Module Base64UrlSpec.

Definition url_sym (i : N) : ascii :=
  if i <? 26 then ascii_of_N (65 + i)
  else if i <? 52 then ascii_of_N (71 + i)
  else if i <? 62 then ascii_of_N (i - 4)
  else if i =? 62 then "-"%char
  else "_"%char.

Fixpoint base64url_no_pad (l : list N) : string :=
  match l with
  | [] => EmptyString
  | [a] => String (url_sym (a / 4 mod 64)) (String (url_sym ((a mod 4) * 16)) EmptyString)
  | [a; b] =>
      String (url_sym (a / 4 mod 64))
        (String (url_sym ((a mod 4) * 16 + (b / 16) mod 16))
           (String (url_sym ((b mod 16) * 4)) EmptyString))
  | a :: b :: c :: rest =>
      String (url_sym (a / 4 mod 64))
        (String (url_sym ((a mod 4) * 16 + (b / 16) mod 16))
           (String (url_sym ((b mod 16) * 4 + (c / 64) mod 4))
              (String (url_sym (c mod 64)) (base64url_no_pad rest))))
  end.

(** The PKCE challenge of a verifier. *)
Definition challenge (code_verifier : string) : string :=
  base64url_no_pad (SHA256.digest (Text.bytes_of code_verifier)).

(** Checks on one 6-bit group: the standard symbol translates to the
    URL-safe one, which is no padding character and needs no quoting. *)
Definition std_to_url (i : N) : bool :=
  Ascii.eqb (Base64.urlsafe_translation (Base64.sym i)) (url_sym i).

Definition not_pad (i : N) : bool := negb (Ascii.eqb (url_sym i) "=").

Definition safe_sym (i : N) : bool := Urllib.always_safe (url_sym i).

End Base64UrlSpec.

(** ** The authorization request of the specification (section 4.3) *)

Module LoginSpec.

(** The cookies that hold the generated state. *)
Definition state_cookies (st : GeneratedState) : list Event :=
  SetSecureCookie "state_id" (state_id st) ::
  match state_next_url st with
  | Some (String _ _ as n) => [SetSecureCookie "next_url" n]
  | _ => []
  end.

(** The query parameters ahead of the PKCE pair. *)
Definition params_before (h : RequestHandler) (s : Settings) (cfg : SMARTConfig)
    (st : GeneratedState) (launch_hint : option string) : list (string * Urllib.pyval) :=
  [ ("aud", Urllib.PyStr (fhir_url cfg));
    ("state", Urllib.PyStr (state_id st));
    ("launch", SMARTLoginHandler.pyval_of_launch launch_hint);
    ("redirect_uri", Urllib.PyStr (redirect_uri h s));
    ("client_id", Urllib.PyStr (client_id s)) ].

(** The query parameters after the PKCE pair. *)
Definition params_after (s : Settings) : list (string * Urllib.pyval) :=
  [ ("response_type", Urllib.PyStr "code");
    ("scope", Urllib.PyStr (Text.join " " (scopes s))) ].

(** The authorization URL, with the PKCE pair spelled out. *)
Definition authorization_url (h : RequestHandler) (s : Settings) (cfg : SMARTConfig)
    (st : GeneratedState) (launch_hint : option string) (code_verifier : string) : string :=
  auth_url cfg +:+ "?" +:+ Urllib.urlencode (params_before h s cfg st launch_hint)
  +:+ "&code_challenge=" +:+ Base64UrlSpec.challenge code_verifier
  +:+ "&code_challenge_method=S256&" +:+ Urllib.urlencode (params_after s).

End LoginSpec.

(** ** The launch request *)

Module LaunchSpec.

(** The configuration resource of an issuer. *)
Definition well_known (fhir_url : string) : string :=
  fhir_url +:+ "/.well-known/smart-configuration".

(** How a launch is refused when its issuer is not a well-formed
    absolute URL: the handler's own 400 when there is no issuer at all,
    the error of the discovery otherwise. *)
Definition rejection (iss : string) : exn :=
  if Text.is_empty iss then HTTPError 400 "issuer (?iss=...) required"
  else DiscoveryError.

(** The settings after a discovery that succeeded. *)
Definition launched (h : RequestHandler) (cfg : SMARTConfig) (s : Settings) : Settings :=
  set_smart_config cfg (set_launch (last_argument h "launch") s).

End LaunchSpec.

(** ** A browser and a worked scenario

    The end-to-end scenario of the specification: the issuer
    [https://ehr.example.org/fhir], a Jupyter server on
    [http://localhost:8888] with no configured redirect URI. *)

Module Scenario.

(** The cookie jar of the browser after a response: every cookie the
    handler set replaces the one of that name. *)
Fixpoint cookies_after (jar : gmap string string) (tr : list Event) : gmap string string :=
  match tr with
  | [] => jar
  | SetSecureCookie name value :: tr' => cookies_after (<[name := value]> jar) tr'
  | _ :: tr' => cookies_after jar tr'
  end.

Definition issuer : string := "https://ehr.example.org/fhir".

(** The double quote, and the reply body of the token endpoint: the JSON
    object with the one field [access_token] of value [tok_abc]. *)
Definition dq : string := String (ascii_of_N 34) EmptyString.

Definition token_reply_body : string :=
  "{" +:+ dq +:+ "access_token" +:+ dq +:+ ":" +:+ dq +:+ "tok_abc" +:+ dq +:+ "}".

(** The discoverer of the scenario takes a URL that begins with
    [http://] or [https://]. *)
Definition http_discoverer : Discoverer :=
  {| well_formed_absolute_url := λ url,
       Text.startswith "http://" url || Text.startswith "https://" url |}.

Definition world : World :=
  {| discoverer := http_discoverer;
     smart_configuration := λ url,
       if String.eqb url "https://ehr.example.org/fhir/.well-known/smart-configuration"
       then Some ("https://ehr.example.org/auth/authorize", "https://ehr.example.org/auth/token")
       else None;
     fetch := λ _, FetchReply token_reply_body;
     json_loads := λ body,
       if String.eqb body token_reply_body
       then Some (Json.Object [("access_token", Json.Str "tok_abc")])
       else None;
     generate_state := {| state_id := "abc123"; state_next_url := None |};
     token_urlsafe := "dBjftJeZ4CVP-mB92K27uhbUJU1p1r_wW1gFWFOEjXk" |}.

Definition config : SMARTConfig :=
  {| fhir_url := issuer;
     auth_url := "https://ehr.example.org/auth/authorize";
     token_url := "https://ehr.example.org/auth/token" |}.

Definition settings0 : Settings :=
  {| base_url := "/"; login_url := "/login";
     scopes := ["openid"; "profile"; "fhirUser"; "launch"; "patient/*.*"];
     client_id := "jupyter"; smart_redirect_uri := EmptyString;
     smart_default_issuer := EmptyString; smart_default_launch_url := EmptyString;
     launch := None; smart_config := None; next_url := None; smart_token := None |}.

Definition handler (proto uri : string) (args : gmap string (list string))
    (cookies : gmap string string) : RequestHandler :=
  {| request := {| protocol := proto; host := "localhost:8888"; uri := uri; arguments := args |};
     signed_cookies := cookies;
     current_user := Some "alice" |}.

(** [GET /smart?iss=https://ehr.example.org/fhir], a standalone launch:
    no [launch] parameter. *)
Definition launch_request : RequestHandler :=
  handler "http" "/smart?iss=https%3A%2F%2Fehr.example.org%2Ffhir"
          {[ "iss" := [issuer] ]} ∅.

Definition after_launch : Run unit := SMARTAuthHandler.get world launch_request settings0.

Definition login_request : RequestHandler := handler "http" "/smart/login" ∅ ∅.

Definition after_login : Run unit :=
  SMARTLoginHandler.get world login_request (final after_launch).

Definition browser_cookies : gmap string string := cookies_after ∅ (trace after_login).

(** [GET /smart/oauth_callback?code=c0de&state=...] *)
Definition callback_request (proto state : string) (cookies : gmap string string)
    : RequestHandler :=
  handler proto ("/smart/oauth_callback?code=c0de&state=" +:+ state)
          {[ "code" := ["c0de"]; "state" := [state] ]} cookies.

Definition good_callback : RequestHandler :=
  callback_request "http" "abc123" browser_cookies.

Definition after_callback : Run unit :=
  SMARTCallbackHandler.get world good_callback (final after_login).

End Scenario.

(** ** Notions shared by the statements about a flow *)

Module Flow.


(** An event that changes the cookies of the browser. *)
Definition sets_cookie (ev : Event) : bool :=
  match ev with
  | SetSecureCookie _ _ => true
  | _ => false
  end.


(** The browser replays a request with the cookies it holds after the
    response [tr]. *)
Definition replay (h : RequestHandler) (tr : list Event) : RequestHandler :=
  {| request := request h;
     signed_cookies := Scenario.cookies_after (signed_cookies h) tr;
     current_user := current_user h |}.


(** What [json.loads(body)["access_token"]] comes to, on the outcome
    of [json.loads]. *)
Definition access_token_of (reply : option Json.value) : result Json.value :=
  match reply with
  | Some (Json.Object items) =>
      match Json.lookup "access_token" items with
      | Some t => Returned t
      | None => Raised (KeyError "access_token")
      end
  | Some _ => Raised TypeError
  | None => Raised (OtherError "JSONDecodeError")
  end.

(** The token exchange of the callback raised. *)
Definition exchange_raised (w : World) (h : RequestHandler) (s : Settings) : Prop :=
  ∃ e, outcome (SMARTCallbackHandler.token_for_code w h (CallbackSpec.received_code h) s)
       = Raised e.

(** The token endpoint was asked and did not answer with a reply. *)
Definition token_endpoint_failed (w : World) (tr : list Event) : Prop :=
  ∃ req, Fetch req ∈ tr ∧
         match fetch w req with FetchReply _ => False | _ => True end.


End Flow.

(** ** The claims that the code does not meet, as the specification states them *)

Module AsStated.
Import Flow.


(** A state accepted once is refused with SessionExpired when the same
    request is replayed. *)
Definition replay_fails_with_session_expired : Prop :=
  ∀ (w w' : World) (h : RequestHandler) (s : Settings),
    let first := SMARTCallbackHandler.get w h s in
    outcome first = Returned tt →
    outcome (SMARTCallbackHandler.get w' (replay h (trace first)) (final first))
    = Raised (CallbackSpec.reported h CallbackSpec.StoredStateMissing).


(** A successful callback redirects to the [next_url] kept in the signed
    cookie of this flow. *)
Definition redirects_to_next_url_cookie : Prop :=
  ∀ (w : World) (h : RequestHandler) (s : Settings),
    let r := SMARTCallbackHandler.get w h s in
    outcome r = Returned tt →
    ∃ u, get_signed_cookie h "next_url" = Some u ∧ Redirect 302 u ∈ trace r.

End AsStated.

(** Inputs on which the handlers part from these statements, and inputs
    at the edges of what the handlers check. *)

Module Counter.


(** The token endpoint refuses the code. *)
Definition refusing_world : World :=
  {| discoverer := discoverer Scenario.world;
     smart_configuration := smart_configuration Scenario.world;
     fetch := λ _, FetchHTTPClientError 400 (Some "invalid_grant");
     json_loads := json_loads Scenario.world;
     generate_state := generate_state Scenario.world;
     token_urlsafe := token_urlsafe Scenario.world |}.

(** [GET /smart?iss=not a url] *)
Definition malformed_launch : RequestHandler :=
  Scenario.handler "http" "/smart?iss=not%20a%20url" {[ "iss" := ["not a url"] ]} ∅.

(** The scenario with a [generate_state()] that returns the next URL
    [/lab]: the login handler stores it in the signed [next_url] cookie, and
    the callback comes from the browser that holds this cookie. *)
Definition world_with_next : World :=
  {| discoverer := discoverer Scenario.world;
     smart_configuration := smart_configuration Scenario.world;
     fetch := fetch Scenario.world;
     json_loads := json_loads Scenario.world;
     generate_state := {| state_id := "abc123"; state_next_url := Some "/lab" |};
     token_urlsafe := token_urlsafe Scenario.world |}.

Definition cookies_with_next : gmap string string :=
  Scenario.cookies_after ∅
    (trace (SMARTLoginHandler.get world_with_next Scenario.login_request
              (final Scenario.after_launch))).

Definition callback_with_next_cookie : RequestHandler :=
  Scenario.callback_request "http" "abc123" cookies_with_next.

(** Stored state [abc123], callback [state=xyz987]. *)
Definition mismatch_callback : RequestHandler :=
  Scenario.callback_request "http" "xyz987" Scenario.browser_cookies.

(** U+00A0, the no-break space, in UTF-8. *)
Definition nbsp : string := String (ascii_of_N 194) (String (ascii_of_N 160) EmptyString).

(** Callback [?code=%C2%A0&state=abc123]: the code is white space
    only. *)
Definition blank_code_callback : RequestHandler :=
  Scenario.handler "http" "/smart/oauth_callback?code=%C2%A0&state=abc123"
                   {[ "code" := [nbsp]; "state" := ["abc123"] ]} Scenario.browser_cookies.

(** Callback [?code=c0de&state=abc123%C2%A0]: white space after the
    state. *)
Definition padded_state_callback : RequestHandler :=
  Scenario.handler "http" "/smart/oauth_callback?code=c0de&state=abc123%C2%A0"
                   {[ "code" := ["c0de"]; "state" := ["abc123" +:+ nbsp] ]}
                   Scenario.browser_cookies.

(** [GET /smart?iss=%C2%A0] *)
Definition blank_iss_launch : RequestHandler :=
  Scenario.handler "http" "/smart?iss=%C2%A0" {[ "iss" := [nbsp] ]} ∅.

(** Callback [?state=abc123], no [code]. *)
Definition missing_code_callback : RequestHandler :=
  Scenario.handler "http" "/smart/oauth_callback?state=abc123"
                   {[ "state" := ["abc123"] ]} Scenario.browser_cookies.

End Counter.

(** ** The rest of [server_extension.py] *)

(** *** The launch handler over any discovery

    [SMARTConfig.from_url] is a class method of [auth.py]: it is given the
    issuer and the URL of the request, not the handler nor its settings.
    Here it is a parameter of the launch handler, so that what is proved of
    the handler holds whatever the discovery does. *)

Module LaunchGeneral.

(** What a call of [SMARTConfig.from_url] did and gave back. *)
Record Discovery := {
  discovery_trace : list Event;
  discovery_outcome : result SMARTConfig;
}.

Definition discovered (d : Discovery) : M SMARTConfig :=
  λ s, mkRun s (discovery_trace d) (discovery_outcome d).

(** The discovery a handler computation amounts to on given settings. *)
Definition observe (m : M SMARTConfig) (s : Settings) : Discovery :=
  {| discovery_trace := trace (m s); discovery_outcome := outcome (m s) |}.

(** [if token:] on the value of [settings.get("smart_token")], which
    is [None] for an absent key. *)
Definition truthy (v : option Json.value) : bool :=
  Json.truthy (default Json.Null v).

(** [os.environ] takes the value: a [str] without a NUL character. *)
Definition exportable (v : Json.value) : bool :=
  match v with
  | Json.Str text => negb (contains_char (ascii_of_N 0) text)
  | _ => false
  end.

(** The body of [SMARTAuthHandler.get], with [from_url] for
    [SMARTConfig.from_url]. *)
Definition get_with (from_url : string → string → Discovery) (h : RequestHandler) : M unit :=
  s <- settings ;;
  let fhir_url := get_argument_default h "iss" id (smart_default_issuer s) in
  when (Text.is_empty fhir_url) (raise (HTTPError 400 "issuer (?iss=...) required")) ;;
  smart_config <- discovered (from_url fhir_url (full_url (request h))) ;;
  let launch_url := get_argument_default h "launch" Some None in
  modify (set_launch launch_url) ;;
  modify (set_smart_config smart_config) ;;
  s <- settings ;;
  let token := default Json.Null (smart_token s) in
  if Json.truthy token then
    environ_set "SMART_TOKEN" token ;;
    emit (SetHeader "Content-Type" "text/plain") ;;
    emit (Write "Authorization success: Token persisted in $SMART_TOKEN")
  else
    modify (set_next_url (uri (request h))) ;;
    redirect (JupyterUtils.url_path_join [base_url s; login_path]).

(** The issuer the handler works with: the last [iss] value when the
    parameter is there, the configured default otherwise. *)
Definition issuer_of (h : RequestHandler) (s : Settings) : string :=
  get_argument_default h "iss" id (smart_default_issuer s).

(** The page a launch answers with when a token is held. *)
Definition token_page (token : string) : list Event :=
  [ SetEnviron "SMART_TOKEN" token;
    SetHeader "Content-Type" "text/plain";
    Write "Authorization success: Token persisted in $SMART_TOKEN" ].

(** The exception of [os.environ] on a value it does not take. *)
Definition export_error (v : Json.value) : exn :=
  match v with
  | Json.Str _ => ValueError
  | _ => TypeError
  end.

(** The text of a token that is a [str]. *)
Definition token_text (v : Json.value) : string :=
  match v with
  | Json.Str text => text
  | _ => EmptyString
  end.

(** What a launch does once the discovery has given [cfg], from the
    settings [s] it started with: without a token, a redirect to the login
    path; with one, the write to the environment and, when that went
    through, the success page. *)
Definition answer (h : RequestHandler) (cfg : SMARTConfig) (s : Settings) : Run unit :=
  let token := default Json.Null (smart_token s) in
  if Json.truthy token then
    if exportable token
    then mkRun (LaunchSpec.launched h cfg s) (token_page (token_text token)) (Returned tt)
    else mkRun (LaunchSpec.launched h cfg s) [] (Raised (export_error token))
  else
    mkRun (set_next_url (uri (request h)) (LaunchSpec.launched h cfg s))
          [Redirect 302 (JupyterUtils.url_path_join [base_url s; login_path])]
          (Returned tt).

End LaunchGeneral.

(** *** [SMARTExtensionApp] *)

Module SMARTExtensionApp.

(** The configurable traits of the application. *)
Record traits := {
  scopes : list string;
  client_id : string;
  redirect_uri : string;
  default_issuer : string;
  default_launch_url : string;
}.

(** The trait values of an application that is not configured. *)
Definition defaults : traits :=
  {| scopes := ["openid"; "profile"; "fhirUser"; "launch"; "patient/*.*"];
     client_id := EmptyString;
     redirect_uri := EmptyString;
     default_issuer := EmptyString;
     default_launch_url := EmptyString |}.

(** [initialize_settings]: the five traits go into the settings. *)
Definition initialize_settings (self : traits) (s : Settings) : Settings :=
  {| Tornado.base_url := Tornado.base_url s;
     Tornado.login_url := Tornado.login_url s;
     Tornado.scopes := scopes self;
     Tornado.client_id := client_id self;
     Tornado.smart_redirect_uri := redirect_uri self;
     Tornado.smart_default_issuer := default_issuer self;
     Tornado.smart_default_launch_url := default_launch_url self;
     Tornado.launch := Tornado.launch s;
     Tornado.smart_config := Tornado.smart_config s;
     Tornado.next_url := Tornado.next_url s;
     Tornado.smart_token := Tornado.smart_token s |}.

(** The handler classes that [initialize_handlers] routes [smart_path],
    [login_path] and [callback_path] to. *)
Inductive Handler :=
| AuthHandler
| LoginHandler
| CallbackHandler.

End SMARTExtensionApp.

(** *** The server: requests served one after the other *)

Module Server.
Import LaunchGeneral.

(** One request as the server meets it: the handler it is routed to, the
    handler object, and what the outside will answer during it. *)
Record Served := {
  kind : SMARTExtensionApp.Handler;
  world : World;
  discovery : string → string → Discovery;
  handler : RequestHandler;
}.

(** The decorated [get] of the handler the request is routed to. *)
Definition serve (r : Served) : M unit :=
  authenticated
    (match kind r with
     | SMARTExtensionApp.AuthHandler => get_with (discovery r)
     | SMARTExtensionApp.LoginHandler => SMARTLoginHandler.get (world r)
     | SMARTExtensionApp.CallbackHandler => SMARTCallbackHandler.get (world r)
     end)
    (handler r).

(** The settings after a sequence of requests. *)
Fixpoint serve_all (rs : list Served) (s : Settings) : Settings :=
  match rs with
  | [] => s
  | r :: rs' => serve_all rs' (final (serve r s))
  end.

(** The settings of a server that has just started: the traits are in,
    no handler has written yet. *)
Definition startup (self : SMARTExtensionApp.traits) (base login : string) : Settings :=
  SMARTExtensionApp.initialize_settings self
    {| base_url := base; login_url := login; scopes := []; client_id := EmptyString;
       smart_redirect_uri := EmptyString; smart_default_issuer := EmptyString;
       smart_default_launch_url := EmptyString;
       launch := None; smart_config := None; next_url := None; smart_token := None |}.

(** The keys the handlers only read. *)
Definition config_of (s : Settings)
    : string * string * list string * string * string * string * string :=
  (base_url s, login_url s, scopes s, client_id s, smart_redirect_uri s,
   smart_default_issuer s, smart_default_launch_url s).

(** How the keys the handlers write hang together. *)
Definition consistent (s : Settings) : Prop :=
  (is_Some (smart_config s) → is_Some (launch s) ∧ is_Some (next_url s)) ∧
  (is_Some (smart_token s) → is_Some (smart_config s)).

End Server.

(** *** Counting in texts *)

Module Count.

(** The occurrences of [c] in [s]. *)
Fixpoint count_char (c : ascii) (s : string) : nat :=
  match s with
  | EmptyString => 0%nat
  | String a r => ((if Ascii.eqb a c then 1 else 0) + count_char c r)%nat
  end.

(** What [quote_plus] can write: a safe character, [+], [%]. *)
Definition quoted (c : ascii) : bool :=
  Urllib.always_safe c || Ascii.eqb c "+" || Ascii.eqb c "%".

Definition quoted_hex (n : N) : bool := Urllib.always_safe (Urllib.hex_digit n).

End Count.

(** More requests of the scenario. *)

Module More.
Import LaunchGeneral.

(** The discovery of the scenario, as the launch handler sees it. *)
Definition discovery (fhir_url request_url : string) : Discovery :=
  observe (Auth.from_url Scenario.world fhir_url request_url) Scenario.settings0.

(** [GET /smart?iss=], on a server with a default issuer. *)
Definition empty_iss_launch : RequestHandler :=
  Scenario.handler "http" "/smart?iss=" {[ "iss" := [EmptyString] ]} ∅.

Definition settings_with_default : Settings :=
  SMARTExtensionApp.initialize_settings
    {| SMARTExtensionApp.scopes := SMARTExtensionApp.scopes SMARTExtensionApp.defaults;
       SMARTExtensionApp.client_id := "jupyter";
       SMARTExtensionApp.redirect_uri := EmptyString;
       SMARTExtensionApp.default_issuer := Scenario.issuer;
       SMARTExtensionApp.default_launch_url := EmptyString |}
    Scenario.settings0.

(** The settings of the scenario after a callback whose token endpoint
    gave the number 42 for [access_token]. *)
Definition settings_with_number : Settings :=
  set_smart_token (Json.Int 42) (final Scenario.after_login).

(** [GET /smart?iss=https://ehr.example.org/fhir&launch=xyz] *)
Definition hinted_launch_request : RequestHandler :=
  Scenario.handler "http" "/smart?iss=https%3A%2F%2Fehr.example.org%2Ffhir&launch=xyz"
                   {[ "iss" := [Scenario.issuer]; "launch" := ["xyz"] ]} ∅.

(** A second launch of the scenario, once the token is held. *)
Definition second_launch : Run unit :=
  get_with discovery Scenario.launch_request (final Scenario.after_callback).

(** A launch for another issuer, by another user, while the first flow is
    under way. *)
Definition other_discovery (fhir_url request_url : string) : Discovery :=
  {| discovery_trace := [HttpGet (LaunchSpec.well_known fhir_url)];
     discovery_outcome :=
       Returned {| fhir_url := fhir_url;
                   auth_url := "https://other.example.org/authorize";
                   token_url := "https://other.example.org/token" |} |}.


Definition other_launch_request : RequestHandler :=
  {| request := {| protocol := "http"; host := "localhost:8888";
                   uri := "/smart?iss=https%3A%2F%2Fother.example.org%2Ffhir";
                   arguments := {[ "iss" := ["https://other.example.org/fhir"] ]} |};
     signed_cookies := ∅;
     current_user := Some "bob" |}.

Definition after_other_launch : Run unit :=
  get_with other_discovery other_launch_request (final Scenario.after_login).

(** The callback of the scenario from a browser without cookies for
    [code_verifier]. *)
Definition callback_without_verifier : RequestHandler :=
  Scenario.callback_request "http" "abc123" (delete "code_verifier" Scenario.browser_cookies).

(** The token endpoint answers with the JSON object whose
    [access_token] is [null]. *)
Definition null_token_world : World :=
  {| discoverer := discoverer Scenario.world;
     smart_configuration := smart_configuration Scenario.world;
     fetch := fetch Scenario.world;
     json_loads := λ _, Some (Json.Object [("access_token", Json.Null)]);
     generate_state := generate_state Scenario.world;
     token_urlsafe := token_urlsafe Scenario.world |}.


(** A second login in the same browser draws another state. *)
Definition second_login_world : World :=
  {| discoverer := discoverer Scenario.world;
     smart_configuration := smart_configuration Scenario.world;
     fetch := fetch Scenario.world;
     json_loads := json_loads Scenario.world;
     generate_state := {| state_id := "def456"; state_next_url := None |};
     token_urlsafe := "kI2Xh1lC0wq0eD8yV9n3m5t7u-Zr4aBcDeFgHiJkLmN" |}.

(** The callback of the first login, from the browser after both. *)
Definition superseded_callback : RequestHandler :=
  Scenario.callback_request "http" "abc123"
    (Scenario.cookies_after Scenario.browser_cookies
       (trace (SMARTLoginHandler.get second_login_world Scenario.login_request
                 (final Scenario.after_login)))).

(** The three requests of the scenario, as served. *)
Definition served (k : SMARTExtensionApp.Handler) (h : RequestHandler) : Server.Served :=
  {| Server.kind := k; Server.world := Scenario.world;
     Server.discovery := discovery; Server.handler := h |}.

Definition scenario_requests : list Server.Served :=
  [ served SMARTExtensionApp.AuthHandler Scenario.launch_request;
    served SMARTExtensionApp.LoginHandler Scenario.login_request;
    served SMARTExtensionApp.CallbackHandler Scenario.good_callback ].

End More.

(** * Theorems *)

(** ** Text and encodings *)

Module TextFacts.

Lemma append_cons (c : ascii) (a b : string) : String c a +:+ b = String c (a +:+ b).
Proof. reflexivity. Qed.

Lemma append_assoc (a b c : string) : (a +:+ b) +:+ c = a +:+ (b +:+ c).
Proof.
  induction a as [|x a IH]; [reflexivity|].
  rewrite !append_cons. by rewrite IH.
Qed.

(** A character outside the strip set shields what precedes it. *)
Lemma rstrip_cons (c a : ascii) (r : string) :
  Ascii.eqb a c = false → Text.rstrip c (String a r) = String a (Text.rstrip c r).
Proof.
  intros H. simpl. rewrite H. by destruct (Text.rstrip c r).
Qed.

Lemma join_app (sep : string) (l1 l2 : list string) :
  l1 ≠ [] → l2 ≠ [] →
  Text.join sep (l1 ++ l2) = Text.join sep l1 +:+ sep +:+ Text.join sep l2.
Proof.
  intros H1 H2. induction l1 as [|p [|q l1] IH]; [done| |].
  - destruct l2; [done|]. reflexivity.
  - change (Text.join sep ((p :: q :: l1) ++ l2))
      with (p +:+ sep +:+ Text.join sep ((q :: l1) ++ l2)).
    rewrite IH by done.
    change (Text.join sep (p :: q :: l1)) with (p +:+ sep +:+ Text.join sep (q :: l1)).
    by rewrite !append_assoc.
Qed.

(** Lists taken three elements at a time. *)
Lemma list_ind3 {A} (P : list A → Prop) :
  P [] → (∀ a, P [a]) → (∀ a b, P [a; b]) →
  (∀ a b c l, P l → P (a :: b :: c :: l)) →
  ∀ l, P l.
Proof.
  intros H0 H1 H2 H3. fix IH 1.
  intros [|a [|b [|c l]]]; [exact H0|apply H1|apply H2|apply H3, IH].
Qed.

(** A property checked on every 6-bit group holds for every number
    below 64. *)
Lemma below_64 (f : N → bool) :
  forallb f (map N.of_nat (seq 0 64)) = true → ∀ i, i < 64 → f i = true.
Proof.
  intros Hall i Hi. rewrite forallb_forall in Hall. apply Hall.
  apply in_map_iff. exists (N.to_nat i). split; [apply N2Nat.id|].
  apply in_seq. lia.
Qed.

End TextFacts.

Module Base64Facts.
Import TextFacts.

Lemma translated_sym (i : N) :
  i < 64 → Base64.urlsafe_translation (Base64.sym i) = Base64UrlSpec.url_sym i.
Proof.
  intros Hi. apply Ascii.eqb_eq. apply (below_64 Base64UrlSpec.std_to_url); [|exact Hi].
  vm_compute. reflexivity.
Qed.

Lemma sym_not_pad (i : N) : i < 64 → Ascii.eqb (Base64UrlSpec.url_sym i) "=" = false.
Proof.
  intros Hi. apply negb_true_iff. apply (below_64 Base64UrlSpec.not_pad); [|exact Hi].
  vm_compute. reflexivity.
Qed.

Lemma sym_always_safe (i : N) : i < 64 → Urllib.always_safe (Base64UrlSpec.url_sym i) = true.
Proof.
  intros Hi. apply (below_64 Base64UrlSpec.safe_sym); [|exact Hi]. vm_compute. reflexivity.
Qed.

Lemma group1 (a : N) : a / 4 mod 64 < 64.
Proof. apply N.mod_lt. lia. Qed.

Lemma group2 (a b : N) : (a mod 4) * 16 + (b / 16) mod 16 < 64.
Proof.
  pose proof (N.mod_lt a 4 ltac:(lia)). pose proof (N.mod_lt (b / 16) 16 ltac:(lia)). lia.
Qed.

Lemma group3 (b c : N) : (b mod 16) * 4 + (c / 64) mod 4 < 64.
Proof.
  pose proof (N.mod_lt b 16 ltac:(lia)). pose proof (N.mod_lt (c / 64) 4 ltac:(lia)). lia.
Qed.

Lemma group4 (c : N) : c mod 64 < 64.
Proof. apply N.mod_lt. lia. Qed.

Lemma group2_last (a : N) : (a mod 4) * 16 < 64.
Proof. pose proof (N.mod_lt a 4 ltac:(lia)). lia. Qed.

Lemma group3_last (b : N) : (b mod 16) * 4 < 64.
Proof. pose proof (N.mod_lt b 16 ltac:(lia)). lia. Qed.

(** Stripping the padding of [urlsafe_b64encode] is the unpadded
    encoding of the specification. *)
Lemma rstrip_urlsafe_b64encode (l : list N) :
  Text.rstrip "=" (Base64.urlsafe_b64encode l) = Base64UrlSpec.base64url_no_pad l.
Proof.
  unfold Base64.urlsafe_b64encode.
  induction l as [|a|a b|a b c l IH] using list_ind3.
  - reflexivity.
  - cbn [Base64.b64encode Text.map_chars Base64UrlSpec.base64url_no_pad].
    unfold Base64.c1, Base64.c2.
    change (0 / 16 mod 16) with 0. rewrite N.add_0_r.
    rewrite !translated_sym by (apply group1 || apply group2_last).
    rewrite !rstrip_cons by (apply sym_not_pad; (apply group1 || apply group2_last)).
    reflexivity.
  - cbn [Base64.b64encode Text.map_chars Base64UrlSpec.base64url_no_pad].
    unfold Base64.c1, Base64.c2, Base64.c3.
    change (0 / 64 mod 4) with 0. rewrite N.add_0_r.
    rewrite !translated_sym by (apply group1 || apply group2 || apply group3_last).
    rewrite !rstrip_cons
      by (apply sym_not_pad; (apply group1 || apply group2 || apply group3_last)).
    reflexivity.
  - cbn [Base64.b64encode Text.map_chars Base64UrlSpec.base64url_no_pad].
    unfold Base64.c1, Base64.c2, Base64.c3, Base64.c4.
    rewrite !translated_sym by (apply group1 || apply group2 || apply group3 || apply group4).
    rewrite !rstrip_cons
      by (apply sym_not_pad; (apply group1 || apply group2 || apply group3 || apply group4)).
    by rewrite IH.
Qed.

Lemma base64url_no_pad_safe (l : list N) :
  Text.all Urllib.always_safe (Base64UrlSpec.base64url_no_pad l) = true.
Proof.
  induction l as [|a|a b|a b c l IH] using list_ind3;
    cbn [Base64UrlSpec.base64url_no_pad Text.all];
    rewrite ?sym_always_safe
      by (apply group1 || apply group2 || apply group3 || apply group4
          || apply group2_last || apply group3_last);
    [reflexivity..|exact IH].
Qed.

(** [quote_plus] leaves a text of safe characters as it is. *)
Lemma quote_plus_safe (s : string) :
  Text.all Urllib.always_safe s = true → Urllib.quote_plus s = s.
Proof.
  induction s as [|c s IH]; [reflexivity|].
  cbn [Text.all Urllib.quote_plus]. intros [Hc Hs]%andb_true_iff.
  unfold Urllib.quote_plus_char. rewrite Hc, (IH Hs). reflexivity.
Qed.

(** The challenge the login handler computes is the challenge of the
    specification. *)
Lemma code_challenge_of_spec (v : string) :
  SMARTLoginHandler.code_challenge_of v = Base64UrlSpec.challenge v.
Proof. apply rstrip_urlsafe_b64encode. Qed.

Lemma quote_plus_challenge (v : string) :
  Urllib.quote_plus (Base64UrlSpec.challenge v) = Base64UrlSpec.challenge v.
Proof. apply quote_plus_safe, base64url_no_pad_safe. Qed.

End Base64Facts.

(** ** Laws of handler computations *)

Module MonadFacts.

Lemma run_eta {A} (r : Run A) : mkRun (final r) (trace r) (outcome r) = r.
Proof. by destruct r. Qed.

Lemma bind_ret_l {A B} (a : A) (f : A → M B) (s : Settings) :
  bind (ret a) f s = f a s.
Proof. unfold bind, ret. simpl. apply run_eta. Qed.

Lemma bind_raise {A B} (e : exn) (f : A → M B) (s : Settings) :
  bind (raise e) f s = raise e s.
Proof. reflexivity. Qed.

Lemma bind_returned {A B} (m : M A) (f : A → M B) (s : Settings) (a : A) :
  outcome (m s) = Returned a →
  bind m f s = mkRun (final (f a (final (m s)))) (trace (m s) ++ trace (f a (final (m s))))
                     (outcome (f a (final (m s)))).
Proof. intros H. unfold bind. by rewrite H. Qed.

Lemma bind_raised {A B} (m : M A) (f : A → M B) (s : Settings) (e : exn) :
  outcome (m s) = Raised e →
  bind m f s = mkRun (final (m s)) (trace (m s)) (Raised e).
Proof. intros H. unfold bind. by rewrite H. Qed.

End MonadFacts.

Module CallbackFacts.
Import MonadFacts CallbackSpec SMARTCallbackHandler Flow.

(** The handler, branch by branch. *)
Lemma callback_get_cases (w : World) (h : RequestHandler) (s : Settings) :
  get w h s =
    match first_failing_check h with
    | Some c => mkRun s [] (Raised (reported h c))
    | None => exchanging w h s
    end.
Proof.
  unfold get, first_failing_check, exchanging, error_param_present, param_missing,
    stored_state_missing, state_param_differs, get_argument, get_signed_cookie, reported.
  destruct (arguments (request h) !! "error") as [vs|] eqn:Herr.
  - rewrite bool_decide_eq_true_2 by eauto.
    destruct (last_argument h "error"); reflexivity.
  - rewrite bool_decide_eq_false_2 by (intros [? ?]; discriminate).
    rewrite bind_ret_l.
    destruct (last_argument h "code") as [code|] eqn:Hcode; [|reflexivity].
    rewrite bind_ret_l.
    destruct code as [|c code']; [reflexivity|].
    unfold when at 1. simpl Text.is_empty. cbv iota. rewrite bind_ret_l.
    destruct (signed_cookies h !! "state_id") as [sid|] eqn:Hsid.
    2:{ rewrite bool_decide_eq_true_2 by reflexivity. reflexivity. }
    rewrite bool_decide_eq_false_2 by discriminate.
    rewrite bind_ret_l.
    destruct (last_argument h "state") as [st|] eqn:Hst; [|reflexivity].
    rewrite bind_ret_l.
    destruct st as [|c2 st']; [reflexivity|].
    unfold when at 1. simpl Text.is_empty. cbv iota. rewrite bind_ret_l.
    destruct (String.eqb (String c2 st') sid) eqn:Heq.
    + apply String.eqb_eq in Heq. subst sid.
      rewrite bool_decide_eq_false_2 by (intros Hne; by apply Hne).
      unfold when. simpl negb. cbv iota. rewrite bind_ret_l.
      unfold received_code. rewrite Hcode. reflexivity.
    + apply String.eqb_neq in Heq.
      rewrite bool_decide_eq_true_2 by congruence.
      reflexivity.
Qed.

Lemma get_failed (w : World) (h : RequestHandler) (s : Settings) (c : Check) :
  first_failing_check h = Some c → get w h s = mkRun s [] (Raised (reported h c)).
Proof. intros H. by rewrite callback_get_cases, H. Qed.

Lemma get_passed (w : World) (h : RequestHandler) (s : Settings) :
  first_failing_check h = None → get w h s = exchanging w h s.
Proof. intros H. by rewrite callback_get_cases, H. Qed.

(** Every failed check is reported with status 400. *)
Lemma reported_status (h : RequestHandler) (c : Check) : http_status (reported h c) = 400.
Proof.
  destruct c; simpl; try reflexivity;
    match goal with |- context [last_argument h ?n] => destruct (last_argument h n) end;
    reflexivity.
Qed.

(** [token_for_code] leaves the settings alone. *)
Lemma token_for_code_final (w : World) (h : RequestHandler) (code : string) (s : Settings) :
  final (token_for_code w h code s) = s.
Proof.
  unfold token_for_code, get_signed_cookie.
  rewrite bind_returned with (a := s) by reflexivity. simpl.
  destruct (signed_cookies h !! "code_verifier") as [v|]; [|reflexivity].
  destruct (smart_config s) as [cfg|]; [|reflexivity].
  simpl. unfold bind; simpl.
  destruct (fetch w _) as [body|st [body|]|name]; simpl; try reflexivity.
  destruct (json_loads w body) as [[| | | | | |reply]|]; try reflexivity.
  destruct (Json.lookup "access_token" reply); reflexivity.
Qed.

(** What [token_for_code] does depends on the settings only through the
    configuration it reads. *)
Lemma token_for_code_trace (w : World) (h : RequestHandler) (code : string) (s : Settings) :
  trace (token_for_code w h code s) =
    match get_signed_cookie h "code_verifier", smart_config s with
    | Some v, Some cfg =>
        let req := token_request (token_url cfg) (Urllib.urlencode (data h s code v)) in
        Fetch req ::
          match fetch w req with
          | FetchHTTPClientError _ (Some body) => [LogError ("Error fetching token: " +:+ body)]
          | _ => []
          end
    | _, _ => []
    end.
Proof.
  unfold token_for_code, get_signed_cookie.
  rewrite bind_returned with (a := s) by reflexivity. simpl.
  destruct (signed_cookies h !! "code_verifier") as [v|]; [|reflexivity].
  destruct (smart_config s) as [cfg|]; [|reflexivity].
  simpl. unfold bind; simpl.
  destruct (fetch w _) as [body|st [body|]|name]; simpl; try reflexivity.
  destruct (json_loads w body) as [[| | | | | |reply]|]; try reflexivity.
  destruct (Json.lookup "access_token" reply); reflexivity.
Qed.

Lemma token_for_code_outcome (w : World) (h : RequestHandler) (code : string) (s : Settings) :
  outcome (token_for_code w h code s) =
    match get_signed_cookie h "code_verifier", smart_config s with
    | None, _ => Raised (AttributeError "'NoneType' object has no attribute 'decode'")
    | Some _, None => Raised (KeyError "smart_config")
    | Some v, Some cfg =>
        let req := token_request (token_url cfg) (Urllib.urlencode (data h s code v)) in
        match fetch w req with
        | FetchReply body => access_token_of (json_loads w body)
        | FetchHTTPClientError st (Some _) => Raised (HTTPClientError st)
        | FetchHTTPClientError _ None =>
            Raised (AttributeError "'NoneType' object has no attribute 'body'")
        | FetchFailure name => Raised (OtherError name)
        end
    end.
Proof.
  unfold token_for_code, get_signed_cookie, access_token_of.
  rewrite bind_returned with (a := s) by reflexivity. simpl.
  destruct (signed_cookies h !! "code_verifier") as [v|]; [|reflexivity].
  destruct (smart_config s) as [cfg|]; [|reflexivity].
  simpl. unfold bind; simpl.
  destruct (fetch w _) as [body|st [body|]|name]; simpl; try reflexivity.
  destruct (json_loads w body) as [[| | | | | |reply]|]; try reflexivity.
  destruct (Json.lookup "access_token" reply); reflexivity.
Qed.

Lemma exchanging_cases (w : World) (h : RequestHandler) (s : Settings) :
  exchanging w h s =
    let r := token_for_code w h (received_code h) s in
    match outcome r with
    | Raised e => mkRun s (trace r) (Raised e)
    | Returned t =>
        match next_url s with
        | Some u => mkRun (set_smart_token t s) (trace r ++ [Redirect 302 u]) (Returned tt)
        | None => mkRun (set_smart_token t s) (trace r) (Raised (KeyError "next_url"))
        end
    end.
Proof.
  unfold exchanging. cbv zeta.
  destruct (outcome (token_for_code w h (received_code h) s)) as [t|e] eqn:Hout.
  - rewrite (bind_returned _ _ _ _ Hout), token_for_code_final.
    unfold bind, modify, settings, item, redirect, emit, ret, raise. simpl.
    destruct (next_url s); simpl; rewrite ?app_nil_r; reflexivity.
  - rewrite (bind_raised _ _ _ _ Hout), token_for_code_final. reflexivity.
Qed.

End CallbackFacts.

(** ** The callback handler *)

Module Callback.
Import MonadFacts CallbackSpec CallbackFacts SMARTCallbackHandler Flow.


(** A token request in the trace means validation has passed. *)
Lemma fetch_only_after_validation (w : World) (h : RequestHandler) (s : Settings)
    (req : HTTPRequest) :
  Fetch req ∈ trace (get w h s) → first_failing_check h = None.
Proof.
  destruct (first_failing_check h) as [c|] eqn:Hc; [|reflexivity].
  rewrite (get_failed _ _ _ _ Hc). simpl. intros H. by apply elem_of_nil in H.
Qed.

(** C1. For every callback request the handler runs the validation
    checks in the order of the state machine: an [error] parameter
    (IssuerError), a missing [code] (ProtocolError), a missing stored state
    cookie (SessionExpired), a missing [state] parameter (ProtocolError), a
    [state] different from the stored one (StateMismatch). It reports the
    first check that fails and goes on to the token exchange only when
    none does. *)
Theorem callback_validation_order (w : World) (h : RequestHandler) (s : Settings) :
  get w h s =
    match first_failing_check h with
    | Some c => mkRun s [] (Raised (reported h c))
    | None => exchanging w h s
    end.
Proof.
  destruct (first_failing_check h) as [c|] eqn:Hc.
  - by apply get_failed.
  - by apply get_passed.
Qed.

(** C2. A callback request whose validation fails is answered with the
    error of the failed check, status 400, and no request goes to the
    token endpoint. *)
Theorem callback_invalid_no_token_request (w : World) (h : RequestHandler) (s : Settings)
    (c : Check) :
  first_failing_check h = Some c →
  outcome (get w h s) = Raised (reported h c) ∧
  http_status (reported h c) = 400 ∧
  ∀ req, Fetch req ∉ trace (get w h s).
Proof.
  intros Hc. rewrite (get_failed _ _ _ _ Hc). simpl.
  split; [reflexivity|]. split; [apply reported_status|].
  intros req H. by apply elem_of_nil in H.
Qed.

(** C10. A callback that fails, in validation or in the token exchange,
    leaves the [smart_token] slot as it was. *)
Theorem callback_failure_keeps_token (w : World) (h : RequestHandler) (s : Settings) :
  first_failing_check h ≠ None ∨ exchange_raised w h s →
  (∃ e, outcome (get w h s) = Raised e) ∧
  smart_token (final (get w h s)) = smart_token s.
Proof.
  intros H. destruct (first_failing_check h) as [c|] eqn:Hc.
  - rewrite (get_failed _ _ _ _ Hc). simpl. eauto.
  - destruct H as [H|[e He]]; [done|].
    rewrite (get_passed _ _ _ Hc), exchanging_cases. cbv zeta. rewrite He. simpl. eauto.
Qed.

(** The slot changes only when the exchange returned a token, and then
    to that token. *)
Lemma token_written_only_after_exchange (w : World) (h : RequestHandler) (s : Settings) :
  final (get w h s) ≠ s →
  first_failing_check h = None ∧
  ∃ t, outcome (token_for_code w h (received_code h) s) = Returned t ∧
       final (get w h s) = set_smart_token t s.
Proof.
  destruct (first_failing_check h) as [c|] eqn:Hc.
  - rewrite (get_failed _ _ _ _ Hc). simpl. done.
  - rewrite (get_passed _ _ _ Hc), exchanging_cases. cbv zeta.
    destruct (outcome (token_for_code w h (received_code h) s)) as [t|e]; simpl; [|done].
    intros _. split; [done|]. exists t. split; [done|].
    destruct (next_url s); reflexivity.
Qed.


(** What a successful callback went through. *)
Lemma success_inversion (w : World) (h : RequestHandler) (s : Settings) :
  outcome (get w h s) = Returned tt →
  first_failing_check h = None ∧
  ∃ t u v cfg,
    outcome (token_for_code w h (received_code h) s) = Returned t ∧
    next_url s = Some u ∧
    get_signed_cookie h "code_verifier" = Some v ∧
    smart_config s = Some cfg ∧
    final (get w h s) = set_smart_token t s ∧
    trace (get w h s) = trace (token_for_code w h (received_code h) s) ++ [Redirect 302 u].
Proof.
  destruct (first_failing_check h) as [c|] eqn:Hc.
  { rewrite (get_failed _ _ _ _ Hc). simpl. discriminate. }
  rewrite (get_passed _ _ _ Hc), exchanging_cases. cbv zeta.
  pose proof (token_for_code_outcome w h (received_code h) s) as Hout.
  destruct (token_for_code w h (received_code h) s) as [s' tr [t|e]];
    cbn [outcome trace final] in *; [|discriminate].
  destruct (next_url s) as [u|]; cbn [outcome trace final]; [intros _|discriminate].
  split; [reflexivity|].
  destruct (get_signed_cookie h "code_verifier") as [v|]; [|discriminate].
  destruct (smart_config s) as [cfg|]; [|discriminate].
  exists t, u, v, cfg. done.
Qed.

(** An exchange that returns sent the token request and nothing else. *)
Lemma token_for_code_returned (w : World) (h : RequestHandler) (code : string)
    (s : Settings) (t : Json.value) :
  outcome (token_for_code w h code s) = Returned t →
  ∃ v cfg,
    get_signed_cookie h "code_verifier" = Some v ∧
    smart_config s = Some cfg ∧
    trace (token_for_code w h code s)
    = [Fetch (token_request (token_url cfg) (Urllib.urlencode (data h s code v)))].
Proof.
  rewrite token_for_code_outcome, token_for_code_trace.
  destruct (get_signed_cookie h "code_verifier") as [v|]; [|discriminate].
  destruct (smart_config s) as [cfg|]; [|discriminate].
  cbv zeta. intros H. exists v, cfg. split; [reflexivity|]. split; [reflexivity|].
  destruct (fetch w _) as [body|st [body|]|name]; try discriminate. reflexivity.
Qed.

(** C9, as the code has it. A callback that passes validation and the
    token exchange does two things, the token request and then one
    redirect, a 302 to the [next_url] held in the process-wide settings; no
    cookie is consulted for it. *)
Theorem callback_redirects_to_settings_next_url (w : World) (h : RequestHandler)
    (s : Settings) :
  outcome (get w h s) = Returned tt →
  ∃ req u, next_url s = Some u ∧ trace (get w h s) = [Fetch req; Redirect 302 u].
Proof.
  intros Hok.
  destruct (success_inversion _ _ _ Hok) as (_ & t & u & v & cfg & Ht & Hu & _ & _ & _ & Htr).
  destruct (token_for_code_returned _ _ _ _ _ Ht) as (v' & cfg' & _ & _ & Htr').
  rewrite Htr, Htr'. eauto.
Qed.

(** The callback handler sets no cookie. *)
Lemma callback_sets_no_cookie (w : World) (h : RequestHandler) (s : Settings) :
  Forall (λ ev, sets_cookie ev = false) (trace (get w h s)).
Proof.
  destruct (first_failing_check h) as [c|] eqn:Hc.
  { rewrite (get_failed _ _ _ _ Hc). constructor. }
  rewrite (get_passed _ _ _ Hc), exchanging_cases. cbv zeta.
  pose proof (token_for_code_trace w h (received_code h) s) as Htr.
  assert (Forall (λ ev, sets_cookie ev = false)
            (trace (token_for_code w h (received_code h) s))) as Hno.
  { rewrite Htr.
    destruct (get_signed_cookie h "code_verifier"); [|constructor].
    destruct (smart_config s); [|constructor].
    cbv zeta. constructor; [reflexivity|].
    destruct (fetch w _) as [?|? [?|]|?]; repeat constructor. }
  destruct (outcome (token_for_code w h (received_code h) s)); [|exact Hno].
  destruct (next_url s); cbn [trace]; [|exact Hno].
  apply Forall_app. split; [exact Hno|]. repeat constructor.
Qed.

Lemma cookies_after_unchanged (jar : gmap string string) (tr : list Event) :
  Forall (λ ev, sets_cookie ev = false) tr → Scenario.cookies_after jar tr = jar.
Proof.
  induction 1 as [|ev tr Hev _ IH]; [reflexivity|].
  destruct ev; simpl in *; try exact IH. discriminate.
Qed.

Lemma replay_same (w : World) (h : RequestHandler) (s : Settings) :
  replay h (trace (get w h s)) = h.
Proof.
  unfold replay. rewrite cookies_after_unchanged by apply callback_sets_no_cookie.
  by destruct h.
Qed.

(** C5, as the code has it. The callback handler does not consume the
    stored state: it sets no cookie, so the browser replays a successful
    callback with the same cookies; the replay passes validation, asks the
    token endpoint again whatever it will answer, and succeeds again when
    the endpoint answers as before. *)
Theorem callback_replay_succeeds_again (w : World) (h : RequestHandler) (s : Settings) :
  outcome (get w h s) = Returned tt →
  replay h (trace (get w h s)) = h ∧
  (∀ w', ∃ req,
     Fetch req ∈ trace (get w' (replay h (trace (get w h s))) (final (get w h s)))) ∧
  outcome (get w (replay h (trace (get w h s))) (final (get w h s))) = Returned tt.
Proof.
  intros Hok. rewrite replay_same.
  destruct (success_inversion _ _ _ Hok) as (Hpass & t & u & v & cfg & Ht & Hu & Hv & Hcfg & Hfin & _).
  rewrite Hfin. split; [reflexivity|]. split.
  - intros w'. rewrite (get_passed _ _ _ Hpass), exchanging_cases. cbv zeta.
    eexists.
    assert (∀ (r : Run Json.value) x,
              x ∈ trace r →
              x ∈ trace (match outcome r with
                         | Returned t0 =>
                             match next_url (set_smart_token t s) with
                             | Some u0 => mkRun (set_smart_token t0 (set_smart_token t s))
                                                (trace r ++ [Redirect 302 u0]) (Returned tt)
                             | None => mkRun (set_smart_token t0 (set_smart_token t s)) (trace r)
                                             (Raised (KeyError "next_url"))
                             end
                         | Raised e => mkRun (set_smart_token t s) (trace r) (Raised e)
                         end)) as Hin.
    { intros r x Hx. destruct (outcome r); [|exact Hx].
      destruct (next_url _); cbn [trace]; [|exact Hx].
      apply elem_of_app. by left. }
    apply Hin. rewrite token_for_code_trace, Hv. cbn [smart_config set_smart_token].
    rewrite Hcfg. cbv zeta. apply list_elem_of_here.
  - rewrite (get_passed _ _ _ Hpass), exchanging_cases. cbv zeta.
    rewrite token_for_code_outcome in Ht |- *.
    rewrite Hv in Ht |- *. cbn [smart_config set_smart_token next_url].
    rewrite Hcfg in Ht |- *. cbv zeta in Ht |- *.
    change (data h (set_smart_token t s)) with (data h s).
    rewrite Ht. cbn [next_url set_smart_token]. rewrite Hu. reflexivity.
Qed.

(** After validation, with the verifier cookie and a configuration, the
    handler sends one request, the token request. *)
Lemma fetches_of_callback (w : World) (h : RequestHandler) (s : Settings)
    (cfg : SMARTConfig) (v : string) (req : HTTPRequest) :
  first_failing_check h = None →
  get_signed_cookie h "code_verifier" = Some v →
  smart_config s = Some cfg →
  Fetch req ∈ trace (get w h s) ↔
  req = token_request (token_url cfg) (Urllib.urlencode (data h s (received_code h) v)).
Proof.
  intros Hpass Hv Hcfg.
  rewrite (get_passed _ _ _ Hpass), exchanging_cases. cbv zeta.
  pose proof (token_for_code_trace w h (received_code h) s) as Htr.
  rewrite Hv, Hcfg in Htr. cbv zeta in Htr.
  assert (Fetch req ∈ trace (token_for_code w h (received_code h) s) ↔
          req = token_request (token_url cfg)
                  (Urllib.urlencode (data h s (received_code h) v))) as Hiff.
  { rewrite Htr, elem_of_cons. split.
    - intros [H|H]; [by injection H|].
      destruct (fetch w _) as [?|? [?|]|?]; try (by apply elem_of_nil in H).
      apply list_elem_of_singleton in H. discriminate.
    - intros ->. by left. }
  destruct (outcome (token_for_code w h (received_code h) s)); [|exact Hiff].
  destruct (next_url s); cbn [trace]; [|exact Hiff].
  rewrite elem_of_app, Hiff, list_elem_of_singleton. split; [|by left].
  intros [H|H]; [exact H|discriminate].
Qed.





(** The redirect URI below a base URL with dot segments: [urljoin]
    resolves them. *)
Example redirect_uri_resolves_dot_segments :
  Urllib.urljoin "http://localhost:8888/smart/login"
    (JupyterUtils.url_path_join ["/a/../b/"; callback_path])
  = "http://localhost:8888/b/smart/oauth_callback".
Proof. vm_compute. reflexivity. Qed.


(** *** The statements on the scenario *)

Lemma callback_invalid_no_token_request_witness :
  outcome (get Scenario.world Counter.mismatch_callback (final Scenario.after_login))
  = Raised (HTTPError 400 "Error: state received from FHIR server does not match") ∧
  http_status (reported Counter.mismatch_callback StateParamDiffers) = 400 ∧
  ∀ req, Fetch req ∉ trace (get Scenario.world Counter.mismatch_callback
                                (final Scenario.after_login)).
Proof.
  apply (callback_invalid_no_token_request Scenario.world Counter.mismatch_callback
           (final Scenario.after_login) StateParamDiffers).
  vm_compute. reflexivity.
Defined.

(** The two examples of the specification, under the names of its
    state machine. *)
Example mismatch_is_StateMismatch :
  failure_of <$> first_failing_check Counter.mismatch_callback = Some StateMismatch.
Proof. vm_compute. reflexivity. Qed.

Example missing_code_is_ProtocolError :
  failure_of <$> first_failing_check Counter.missing_code_callback = Some ProtocolError.
Proof. vm_compute. reflexivity. Qed.

(** White space is stripped from the arguments as [str.strip()] does
    it, U+00A0 included: a code made of it is no code, and a state followed
    by it is the state. *)
Example blank_code_is_no_code :
  get Scenario.world Counter.blank_code_callback (final Scenario.after_login)
  = mkRun (final Scenario.after_login) []
      (Raised (HTTPError 400 "Error: no code in response from FHIR server")).
Proof. vm_compute. reflexivity. Qed.

Example padded_state_is_accepted :
  first_failing_check Counter.padded_state_callback = None
  ∧ get Scenario.world Counter.padded_state_callback (final Scenario.after_login)
    = Scenario.after_callback.
Proof. vm_compute. split; reflexivity. Qed.

(** The missing code of the specification's example: reported before any
    request leaves. *)
Lemma missing_code_example :
  get Scenario.world Counter.missing_code_callback (final Scenario.after_login)
  = mkRun (final Scenario.after_login) [] (Raised (MissingArgumentError "code")).
Proof. vm_compute. reflexivity. Qed.

Lemma callback_failure_keeps_token_witness :
  (∃ e, outcome (get Counter.refusing_world Scenario.good_callback
                     (final Scenario.after_callback)) = Raised e) ∧
  smart_token (final (get Counter.refusing_world Scenario.good_callback
                          (final Scenario.after_callback)))
  = smart_token (final Scenario.after_callback).
Proof.
  apply (callback_failure_keeps_token Counter.refusing_world Scenario.good_callback
           (final Scenario.after_callback)).
  right. exists (HTTPClientError 400). vm_compute. reflexivity.
Defined.


(** The refused code of the scenario: the token endpoint was asked, it
    answered 400, the answer of the handler is a 500. A mismatched state
    is answered with 400. *)
Example refused_code_is_500 :
  token_endpoint_failed Counter.refusing_world
    (trace (get Counter.refusing_world Scenario.good_callback (final Scenario.after_login)))
  ∧ http_status <$> (match outcome (get Counter.refusing_world Scenario.good_callback
                                        (final Scenario.after_login)) with
                     | Raised e => Some e
                     | Returned _ => None
                     end) = Some 500
  ∧ http_status <$> (match outcome (get Scenario.world Counter.mismatch_callback
                                        (final Scenario.after_login)) with
                     | Raised e => Some e
                     | Returned _ => None
                     end) = Some 400.
Proof.
  split; [|split; vm_compute; reflexivity].
  eexists. split; [|exact I].
  rewrite (get_passed _ _ _ (eq_refl : first_failing_check Scenario.good_callback = None)).
  rewrite exchanging_cases. cbv zeta. rewrite token_for_code_outcome, token_for_code_trace.
  vm_compute. apply list_elem_of_here.
Qed.


Lemma callback_redirects_to_settings_next_url_witness :
  ∃ req u, next_url (final Scenario.after_login) = Some u ∧
           trace Scenario.after_callback = [Fetch req; Redirect 302 u].
Proof.
  apply (callback_redirects_to_settings_next_url Scenario.world Scenario.good_callback
           (final Scenario.after_login)).
  vm_compute. reflexivity.
Defined.

(** The cookies the login of that flow left in the browser. *)
Example cookies_with_next_url :
  Counter.cookies_with_next !! "next_url" = Some "/lab" ∧
  Counter.cookies_with_next !! "state_id" = Some "abc123" ∧
  Counter.cookies_with_next !! "code_verifier"
  = Some "dBjftJeZ4CVP-mB92K27uhbUJU1p1r_wW1gFWFOEjXk".
Proof. vm_compute. repeat split; reflexivity. Qed.

(** C9 fails as stated: the login stored [/lab] in the signed [next_url]
    cookie, and the callback redirects to the URL in the settings
    instead. *)
Lemma next_url_cookie_counterexample : ¬ AsStated.redirects_to_next_url_cookie.
Proof.
  intros H.
  destruct (H Counter.world_with_next Counter.callback_with_next_cookie
              (final Scenario.after_login))
    as (u & Hu & Hin).
  { vm_compute. reflexivity. }
  vm_compute in Hu. injection Hu as <-.
  apply list_elem_of_In in Hin. vm_compute in Hin.
  destruct Hin as [Hin|[Hin|[]]]; discriminate Hin.
Qed.

Lemma callback_replay_succeeds_again_witness :
  replay Scenario.good_callback (trace Scenario.after_callback) = Scenario.good_callback ∧
  (∀ w', ∃ req,
     Fetch req ∈ trace (get w' (replay Scenario.good_callback (trace Scenario.after_callback))
                            (final Scenario.after_callback))) ∧
  outcome (get Scenario.world (replay Scenario.good_callback (trace Scenario.after_callback))
               (final Scenario.after_callback)) = Returned tt.
Proof.
  apply (callback_replay_succeeds_again Scenario.world Scenario.good_callback
           (final Scenario.after_login)).
  vm_compute. reflexivity.
Defined.

(** C5 fails as stated: the replay of the scenario's callback is
    accepted a second time. *)
Lemma replay_counterexample : ¬ AsStated.replay_fails_with_session_expired.
Proof.
  intros H.
  specialize (H Scenario.world Scenario.world Scenario.good_callback
                (final Scenario.after_login)).
  cbv zeta in H.
  assert (outcome (get Scenario.world Scenario.good_callback (final Scenario.after_login))
          = Returned tt) as Hok by (vm_compute; reflexivity).
  specialize (H Hok). vm_compute in H. discriminate H.
Qed.


(** The token request of the scenario. *)
Example scenario_token_request :
  trace Scenario.after_callback =
  [ Fetch {| req_url := "https://ehr.example.org/auth/token";
             req_method := "POST";
             req_headers := [("Content-Type", "application/x-www-form-urlencoded")];
             req_body := "client_id=jupyter&grant_type=authorization_code&code=c0de&code_verifier=dBjftJeZ4CVP-mB92K27uhbUJU1p1r_wW1gFWFOEjXk&redirect_uri=http%3A%2F%2Flocalhost%3A8888%2Fsmart%2Foauth_callback" |};
    Redirect 302 "/smart?iss=https%3A%2F%2Fehr.example.org%2Ffhir" ]
  ∧ smart_token (final Scenario.after_callback) = Some (Json.Str "tok_abc").
Proof. vm_compute. split; reflexivity. Qed.


End Callback.

(** ** The login handler *)

Module Login.
Import TextFacts Base64Facts MonadFacts SMARTLoginHandler LoginSpec Flow.

Lemma urlencode_app (l1 l2 : list (string * Urllib.pyval)) :
  l1 ≠ [] → l2 ≠ [] →
  Urllib.urlencode (l1 ++ l2) = Urllib.urlencode l1 +:+ "&" +:+ Urllib.urlencode l2.
Proof.
  intros H1 H2. unfold Urllib.urlencode. rewrite map_app.
  apply join_app; by destruct l1, l2.
Qed.

(** The URL the handler builds is the authorization URL of the
    specification. *)
Lemma login_url_spec (h : RequestHandler) (s : Settings) (cfg : SMARTConfig)
    (st : GeneratedState) (launch_hint : option string) (v : string) :
  auth_url cfg +:+ "?" +:+ Urllib.urlencode (headers h s cfg st launch_hint (code_challenge_of v))
  = authorization_url h s cfg st launch_hint v.
Proof.
  unfold authorization_url.
  change (headers h s cfg st launch_hint (code_challenge_of v))
    with (params_before h s cfg st launch_hint ++
          [("code_challenge", Urllib.PyBytes (code_challenge_of v));
           ("code_challenge_method", Urllib.PyStr "S256")] ++ params_after s).
  rewrite !urlencode_app by done.
  unfold Urllib.urlencode at 2. cbn [map Text.join]. unfold Urllib.encode_item.
  cbn [fst snd Urllib.quote_value].
  rewrite code_challenge_of_spec, quote_plus_challenge.
  rewrite !append_assoc. reflexivity.
Qed.

(** The handler, branch by branch. *)
Lemma login_get_cases (w : World) (h : RequestHandler) (s : Settings) :
  get w h s =
    let st := generate_state w in
    let v := token_urlsafe w in
    match smart_config s with
    | None => mkRun s (state_cookies st) (Raised (KeyError "smart_config"))
    | Some cfg =>
        match launch s with
        | None =>
            mkRun s (state_cookies st ++ [SetSecureCookie "code_verifier" v])
                  (Raised (KeyError "launch"))
        | Some launch_hint =>
            mkRun s
              (state_cookies st ++
               [SetSecureCookie "code_verifier" v;
                Redirect 302 (authorization_url h s cfg st launch_hint v)])
              (Returned tt)
        end
    end.
Proof.
  cbv zeta. unfold get, state_cookies. cbv zeta.
  destruct (state_next_url (generate_state w)) as [[|c n]|];
    cbv [bind emit ret raise item settings redirect outcome final trace];
    destruct (smart_config s) as [cfg|]; try reflexivity;
    destruct (launch s) as [launch_hint|]; try reflexivity;
    cbn [app]; rewrite login_url_spec; reflexivity.
Qed.

End Login.

(** ** The launch handler *)

Module Launch.
Import MonadFacts SMARTAuthHandler LaunchSpec LaunchGeneral Flow.

Lemma launch_argument (h : RequestHandler) :
  get_argument_default h "launch" Some None = last_argument h "launch".
Proof. unfold get_argument_default. by destruct (last_argument h "launch"). Qed.

(** The lines of the launch handler after the discovery. *)
Lemma answer_run (h : RequestHandler) (cfg : SMARTConfig) (s : Settings) :
  (if Json.truthy (default Json.Null (smart_token s)) then
     bind (environ_set "SMART_TOKEN" (default Json.Null (smart_token s)))
       (λ _, bind (emit (SetHeader "Content-Type" "text/plain"))
               (λ _, emit (Write "Authorization success: Token persisted in $SMART_TOKEN")))
   else
     bind (modify (set_next_url (uri (request h))))
       (λ _, redirect (JupyterUtils.url_path_join [base_url s; login_path])))
    (launched h cfg s)
  = answer h cfg s.
Proof.
  unfold answer, exportable, export_error, token_text, token_page, environ_set.
  cbv zeta.
  destruct (Json.truthy _); [|reflexivity].
  destruct (default Json.Null (smart_token s)) as [| | | |text| |]; try reflexivity.
  destruct (contains_char _ text); reflexivity.
Qed.

(** The handler, branch by branch. *)
Lemma launch_get_cases (w : World) (h : RequestHandler) (s : Settings) :
  get w h s =
    let iss := get_argument_default h "iss" id (smart_default_issuer s) in
    if Text.is_empty iss then mkRun s [] (Raised (HTTPError 400 "issuer (?iss=...) required"))
    else if well_formed_absolute_url (discoverer w) iss then
      match smart_configuration w (well_known iss) with
      | None => mkRun s [HttpGet (well_known iss)] (Raised DiscoveryError)
      | Some (authorization_endpoint, token_endpoint) =>
          let r := answer h {| fhir_url := iss; auth_url := authorization_endpoint;
                               token_url := token_endpoint |} s in
          mkRun (final r) (HttpGet (well_known iss) :: trace r) (outcome r)
      end
    else mkRun s [] (Raised DiscoveryError).
Proof.
  cbv zeta. unfold get, Auth.from_url, well_known.
  cbv [bind emit ret raise when modify settings outcome final trace].
  destruct (Text.is_empty _); [reflexivity|].
  cbv [bind emit ret raise when modify settings outcome final trace].
  destruct (well_formed_absolute_url _ _); [|reflexivity].
  cbv [bind emit ret raise when modify settings outcome final trace].
  destruct (smart_configuration w _) as [[a t]|]; [|reflexivity].
  cbv [bind emit ret raise when modify settings outcome final trace].
  rewrite launch_argument.
  set (cfg := {| fhir_url := _ |}).
  rewrite <- (answer_run h cfg s).
  cbn [smart_token set_smart_config set_launch base_url].
  unfold launched.
  destruct (Json.truthy _); [|reflexivity].
  unfold bind.
  destruct (environ_set _ _ _) as [s' tr [[]|e]]; reflexivity.
Qed.

(** C8, with the discovery of the specification. A launch request whose
    [iss] the Issuer Discoverer does not take for a well-formed absolute
    URL is refused with a 400-class error and nothing else happens: no
    outbound call, no change to the settings. The error is the handler's
    own 400 when the issuer is empty; any other [iss] goes unchecked to
    the discovery, whose validation refuses it with its DiscoveryError. *)
Theorem launch_malformed_iss (w : World) (h : RequestHandler) (s : Settings) (iss : string) :
  last_argument h "iss" = Some iss →
  well_formed_absolute_url (discoverer w) iss = false →
  get w h s = mkRun s [] (Raised (rejection iss)) ∧
  400 <= http_status (rejection iss) < 500.
Proof.
  intros Hiss Hbad. rewrite launch_get_cases. cbv zeta.
  unfold get_argument_default, rejection. rewrite Hiss. cbn [id].
  destruct (Text.is_empty iss); [split; [reflexivity|by vm_compute]|].
  rewrite Hbad. split; [reflexivity|by vm_compute].
Qed.

Lemma launch_malformed_iss_witness :
  get Scenario.world Counter.malformed_launch Scenario.settings0
  = mkRun Scenario.settings0 [] (Raised (rejection "not a url")) ∧
  400 <= http_status (rejection "not a url") < 500.
Proof.
  apply (launch_malformed_iss Scenario.world Counter.malformed_launch Scenario.settings0
           "not a url").
  - vm_compute. reflexivity.
  - vm_compute. reflexivity.
Defined.

(** An [iss] of white space only is no issuer: the handler's own 400,
    whatever the discoverer thinks of the text. *)
Example blank_iss_is_no_issuer :
  get Scenario.world Counter.blank_iss_launch Scenario.settings0
  = mkRun Scenario.settings0 [] (Raised (HTTPError 400 "issuer (?iss=...) required")).
Proof. vm_compute. reflexivity. Qed.

(** A launch that succeeds leaves in the settings the configuration it
    discovered and the launch hint of the request, [None] without one. *)
Lemma launch_success (w : World) (h : RequestHandler) (s : Settings) :
  outcome (get w h s) = Returned tt →
  ∃ cfg, smart_config (final (get w h s)) = Some cfg ∧
         launch (final (get w h s)) = Some (last_argument h "launch").
Proof.
  rewrite launch_get_cases. cbv zeta.
  destruct (Text.is_empty _); [discriminate|].
  destruct (well_formed_absolute_url _ _); [|discriminate].
  destruct (smart_configuration w _) as [[a t]|]; [|discriminate].
  intros _. eexists. cbn [final]. unfold answer. cbv zeta.
  destruct (Json.truthy _); [destruct (exportable _)|]; split; reflexivity.
Qed.

End Launch.

(** ** The authorization request *)

Module AuthorizationRequest.
Import TextFacts Base64Facts SMARTLoginHandler LoginSpec LaunchSpec Flow.

Lemma no_redirect_in_state_cookies (st : GeneratedState) (status : N) (u : string) :
  Redirect status u ∉ state_cookies st.
Proof.
  unfold state_cookies. intros [H|H]%elem_of_cons; [discriminate|].
  destruct (state_next_url st) as [[|c n]|]; try (by apply elem_of_nil in H).
  apply list_elem_of_singleton in H. discriminate.
Qed.

(** C3. Whenever the login handler redirects, the authorization URL
    carries [code_challenge] equal to the unpadded URL-safe base64 of the
    SHA-256 of the code verifier drawn for this login, written as it is,
    and [code_challenge_method=S256]. *)
Theorem login_code_challenge (w : World) (h : RequestHandler) (s : Settings)
    (status : N) (u : string) :
  Redirect status u ∈ trace (get w h s) →
  ∃ cfg launch_hint,
    smart_config s = Some cfg ∧ launch s = Some launch_hint ∧
    u = auth_url cfg +:+ "?" +:+
        Urllib.urlencode (params_before h s cfg (generate_state w) launch_hint)
        +:+ "&code_challenge=" +:+ Base64UrlSpec.challenge (token_urlsafe w)
        +:+ "&code_challenge_method=S256&" +:+ Urllib.urlencode (params_after s).
Proof.
  rewrite Login.login_get_cases. cbv zeta.
  destruct (smart_config s) as [cfg|]; cbn [trace].
  2:{ intros H. by apply no_redirect_in_state_cookies in H. }
  destruct (launch s) as [launch_hint|]; cbn [trace].
  - intros [H|H]%elem_of_app; [by apply no_redirect_in_state_cookies in H|].
    apply elem_of_cons in H as [H|H]; [discriminate|].
    apply list_elem_of_singleton in H. injection H as -> ->.
    exists cfg, launch_hint. done.
  - intros [H|H]%elem_of_app; [by apply no_redirect_in_state_cookies in H|].
    apply list_elem_of_singleton in H. discriminate.
Qed.

Lemma login_code_challenge_witness :
  ∃ cfg launch_hint,
    smart_config (final Scenario.after_launch) = Some cfg ∧
    launch (final Scenario.after_launch) = Some launch_hint ∧
    "https://ehr.example.org/auth/authorize?aud=https%3A%2F%2Fehr.example.org%2Ffhir&state=abc123&launch=None&redirect_uri=http%3A%2F%2Flocalhost%3A8888%2Fsmart%2Foauth_callback&client_id=jupyter&code_challenge=E9Melhoa2OwvFrEMTJguCHaoeK1t8URWbuGJSstw-cM&code_challenge_method=S256&response_type=code&scope=openid+profile+fhirUser+launch+patient%2F%2A.%2A"
    = auth_url cfg +:+ "?" +:+
      Urllib.urlencode (params_before Scenario.login_request (final Scenario.after_launch) cfg
                          (generate_state Scenario.world) launch_hint)
      +:+ "&code_challenge=" +:+ Base64UrlSpec.challenge (token_urlsafe Scenario.world)
      +:+ "&code_challenge_method=S256&" +:+
      Urllib.urlencode (params_after (final Scenario.after_launch)).
Proof.
  apply (login_code_challenge Scenario.world Scenario.login_request
           (final Scenario.after_launch) 302).
  apply list_elem_of_In. vm_compute. right. right. left. reflexivity.
Defined.

(** The verifier of RFC 7636, appendix B, and its challenge. *)
Example rfc7636_challenge :
  code_challenge_of "dBjftJeZ4CVP-mB92K27uhbUJU1p1r_wW1gFWFOEjXk"
  = "E9Melhoa2OwvFrEMTJguCHaoeK1t8URWbuGJSstw-cM".
Proof. vm_compute. reflexivity. Qed.

(** Without a launch hint the first parameters are encoded with the
    text [None] for [launch]. *)
Lemma params_before_without_hint (h : RequestHandler) (s : Settings) (cfg : SMARTConfig)
    (st : GeneratedState) :
  Urllib.urlencode (params_before h s cfg st None)
  = "aud=" +:+ Urllib.quote_plus (fhir_url cfg)
    +:+ "&state=" +:+ Urllib.quote_plus (state_id st)
    +:+ "&launch=None&redirect_uri=" +:+ Urllib.quote_plus (redirect_uri h s)
    +:+ "&client_id=" +:+ Urllib.quote_plus (client_id s).
Proof.
  unfold Urllib.urlencode, params_before. cbn [map Text.join]. unfold Urllib.encode_item.
  cbn [fst snd Urllib.quote_value pyval_of_launch].
  rewrite !append_assoc. reflexivity.
Qed.

(** C6, where the code parts from it. After a launch request without a
    [launch] parameter, the login handler redirects to an authorization URL
    that carries [launch=None]: the parameter is neither omitted nor
    empty. The other parameters are those of the claim. *)
Theorem login_after_launch_without_hint (w : World) (h0 h1 : RequestHandler) (s : Settings) :
  last_argument h0 "launch" = None →
  outcome (SMARTAuthHandler.get w h0 s) = Returned tt →
  ∃ cfg,
    smart_config (final (SMARTAuthHandler.get w h0 s)) = Some cfg ∧
    Redirect 302
      (auth_url cfg
       +:+ "?aud=" +:+ Urllib.quote_plus (fhir_url cfg)
       +:+ "&state=" +:+ Urllib.quote_plus (state_id (generate_state w))
       +:+ "&launch=None&redirect_uri=" +:+
           Urllib.quote_plus (redirect_uri h1 (final (SMARTAuthHandler.get w h0 s)))
       +:+ "&client_id=" +:+ Urllib.quote_plus (client_id (final (SMARTAuthHandler.get w h0 s)))
       +:+ "&code_challenge=" +:+ Base64UrlSpec.challenge (token_urlsafe w)
       +:+ "&code_challenge_method=S256&response_type=code&scope=" +:+
           Urllib.quote_plus (Text.join " " (scopes (final (SMARTAuthHandler.get w h0 s)))))
    ∈ trace (get w h1 (final (SMARTAuthHandler.get w h0 s))).
Proof.
  intros Hnone Hok.
  destruct (Launch.launch_success _ _ _ Hok) as (cfg & Hcfg & Hlaunch).
  rewrite Hnone in Hlaunch. exists cfg. split; [exact Hcfg|].
  rewrite Login.login_get_cases. cbv zeta. rewrite Hcfg, Hlaunch. cbn [trace].
  apply elem_of_app. right. apply list_elem_of_further.
  unfold authorization_url. rewrite params_before_without_hint.
  unfold Urllib.urlencode, params_after. cbn [map Text.join]. unfold Urllib.encode_item.
  cbn [fst snd Urllib.quote_value].
  rewrite !append_assoc. apply list_elem_of_here.
Qed.

Lemma login_after_launch_without_hint_witness :
  ∃ cfg,
    smart_config (final Scenario.after_launch) = Some cfg ∧
    Redirect 302
      (auth_url cfg
       +:+ "?aud=" +:+ Urllib.quote_plus (fhir_url cfg)
       +:+ "&state=" +:+ Urllib.quote_plus (state_id (generate_state Scenario.world))
       +:+ "&launch=None&redirect_uri=" +:+
           Urllib.quote_plus (redirect_uri Scenario.login_request (final Scenario.after_launch))
       +:+ "&client_id=" +:+ Urllib.quote_plus (client_id (final Scenario.after_launch))
       +:+ "&code_challenge=" +:+ Base64UrlSpec.challenge (token_urlsafe Scenario.world)
       +:+ "&code_challenge_method=S256&response_type=code&scope=" +:+
           Urllib.quote_plus (Text.join " " (scopes (final Scenario.after_launch))))
    ∈ trace Scenario.after_login.
Proof.
  apply (login_after_launch_without_hint Scenario.world Scenario.launch_request
           Scenario.login_request Scenario.settings0).
  - vm_compute. reflexivity.
  - vm_compute. reflexivity.
Defined.

(** The scenario of the specification, run to its login redirect. *)
Example standalone_login_trace :
  trace Scenario.after_login =
  [ SetSecureCookie "state_id" "abc123";
    SetSecureCookie "code_verifier" "dBjftJeZ4CVP-mB92K27uhbUJU1p1r_wW1gFWFOEjXk";
    Redirect 302
      "https://ehr.example.org/auth/authorize?aud=https%3A%2F%2Fehr.example.org%2Ffhir&state=abc123&launch=None&redirect_uri=http%3A%2F%2Flocalhost%3A8888%2Fsmart%2Foauth_callback&client_id=jupyter&code_challenge=E9Melhoa2OwvFrEMTJguCHaoeK1t8URWbuGJSstw-cM&code_challenge_method=S256&response_type=code&scope=openid+profile+fhirUser+launch+patient%2F%2A.%2A" ].
Proof. vm_compute. reflexivity. Qed.

(** With a launch hint the parameter carries it. *)
Example ehr_launch_carries_hint :
  Urllib.encode_item ("launch", pyval_of_launch (Some "xyz 123")) = "launch=xyz+123".
Proof. vm_compute. reflexivity. Qed.

End AuthorizationRequest.

(** ** The guard in front of the handlers *)

Module Guard.

(** An authenticated request reaches the method. *)
Lemma authenticated_user (method : RequestHandler → M unit) (h : RequestHandler) (u : string) :
  current_user h = Some u → authenticated method h = method h.
Proof. intros H. unfold authenticated. by rewrite H. Qed.

(** An anonymous request is sent to the login page: the method does not
    run, the settings stay, nothing but the redirect happens. *)
Lemma authenticated_anonymous (method : RequestHandler → M unit) (h : RequestHandler)
    (s : Settings) :
  current_user h = None →
  ∃ url, authenticated method h s = mkRun s [Redirect 302 url] (Returned tt).
Proof. intros H. unfold authenticated. rewrite H. eexists. reflexivity. Qed.

(** Behind the guard too, a token request means an authenticated
    request that passed validation. *)
Lemma guarded_fetch_only_after_validation (w : World) (h : RequestHandler) (s : Settings)
    (req : HTTPRequest) :
  Fetch req ∈ trace (authenticated (SMARTCallbackHandler.get w) h s) →
  is_Some (current_user h) ∧ CallbackSpec.first_failing_check h = None.
Proof.
  destruct (current_user h) as [u|] eqn:Hu.
  - rewrite (authenticated_user _ _ _ Hu). intros H. split; [eauto|].
    eapply Callback.fetch_only_after_validation. exact H.
  - destruct (authenticated_anonymous (SMARTCallbackHandler.get w) h s Hu) as [url ->].
    cbn [trace]. intros H. apply list_elem_of_singleton in H. discriminate.
Qed.

(** Behind the guard too, the settings change only through a token
    exchange that returned. *)
Lemma guarded_settings_change (w : World) (h : RequestHandler) (s : Settings) :
  final (authenticated (SMARTCallbackHandler.get w) h s) ≠ s →
  ∃ t, final (authenticated (SMARTCallbackHandler.get w) h s) = set_smart_token t s.
Proof.
  destruct (current_user h) as [u|] eqn:Hu.
  - rewrite (authenticated_user _ _ _ Hu). intros H.
    destruct (Callback.token_written_only_after_exchange _ _ _ H) as (_ & t & _ & Ht).
    eauto.
  - destruct (authenticated_anonymous (SMARTCallbackHandler.get w) h s Hu) as [url ->].
    cbn [final]. done.
Qed.

End Guard.

(** * The rest of the code *)

(** ** The launch handler, whatever the discovery *)

Module LaunchFacts.
Import MonadFacts LaunchGeneral LaunchSpec Flow.

(** The handler, branch by branch. *)
Lemma get_with_cases (from_url : string → string → Discovery) (h : RequestHandler)
    (s : Settings) :
  get_with from_url h s =
    if Text.is_empty (issuer_of h s) then
      mkRun s [] (Raised (HTTPError 400 "issuer (?iss=...) required"))
    else
      let d := from_url (issuer_of h s) (full_url (request h)) in
      match discovery_outcome d with
      | Raised e => mkRun s (discovery_trace d) (Raised e)
      | Returned cfg =>
          let r := answer h cfg s in
          mkRun (final r) (discovery_trace d ++ trace r) (outcome r)
      end.
Proof.
  cbv zeta. unfold get_with, issuer_of, discovered.
  cbv [bind emit ret raise when modify settings outcome final trace].
  destruct (Text.is_empty _); [reflexivity|].
  cbv [bind emit ret raise when modify settings outcome final trace].
  destruct (discovery_outcome _) as [cfg|e]; [|reflexivity].
  cbv [bind emit ret raise when modify settings outcome final trace].
  rewrite Launch.launch_argument.
  rewrite <- (Launch.answer_run h cfg s).
  cbn [smart_token set_smart_config set_launch base_url].
  unfold launched. rewrite ?app_nil_r.
  destruct (Json.truthy _); [|reflexivity].
  unfold bind.
  destruct (environ_set _ _ _) as [s' tr [[]|e]]; cbn [outcome trace final];
    rewrite ?app_nil_r; reflexivity.
Qed.

(** The launch handler of the model is the handler over the discovery of
    the model. *)
Lemma get_is_get_with (w : World) (h : RequestHandler) (s : Settings) :
  SMARTAuthHandler.get w h s =
  get_with (λ fhir_url request_url, observe (Auth.from_url w fhir_url request_url) s) h s.
Proof.
  rewrite Launch.launch_get_cases, get_with_cases. cbv zeta.
  unfold issuer_of, observe, Auth.from_url, well_known.
  cbn [discovery_outcome discovery_trace].
  destruct (Text.is_empty _); [reflexivity|].
  destruct (well_formed_absolute_url _ _); [|reflexivity].
  cbv [bind emit ret raise outcome final trace].
  destruct (smart_configuration w _) as [[a t]|]; reflexivity.
Qed.



(** A launch changes the settings by its answer only. *)
Lemma answer_final (h : RequestHandler) (cfg : SMARTConfig) (s : Settings) :
  final (answer h cfg s)
  = if truthy (smart_token s) then launched h cfg s
    else set_next_url (uri (request h)) (launched h cfg s).
Proof.
  unfold answer, truthy. cbv zeta.
  destruct (Json.truthy _); [destruct (exportable _)|]; reflexivity.
Qed.

(** X1. A launch whose [iss] parameter is there but empty once stripped
    is refused with 400 even when a default issuer is configured, and so
    is a launch without [iss] when no default is configured; the discovery
    is not run, nothing is emitted, the settings stay. *)
Theorem launch_issuer_required (from_url : string → string → Discovery)
    (h : RequestHandler) (s : Settings) :
  last_argument h "iss" = Some EmptyString ∨
  (last_argument h "iss" = None ∧ smart_default_issuer s = EmptyString) →
  get_with from_url h s = mkRun s [] (Raised (HTTPError 400 "issuer (?iss=...) required")).
Proof.
  intros H. rewrite get_with_cases. unfold issuer_of, get_argument_default.
  destruct H as [->|[-> ->]]; reflexivity.
Qed.

Lemma launch_issuer_required_witness :
  smart_default_issuer More.settings_with_default = Scenario.issuer ∧
  get_with More.discovery More.empty_iss_launch More.settings_with_default
  = mkRun More.settings_with_default [] (Raised (HTTPError 400 "issuer (?iss=...) required")).
Proof.
  split; [reflexivity|].
  apply (launch_issuer_required More.discovery More.empty_iss_launch
           More.settings_with_default).
  left. vm_compute. reflexivity.
Defined.



(** The launch of the scenario, repeated after a token endpoint gave the
    number 42 for [access_token]: it fails with a [TypeError], and the
    launch hint and the configuration are in the settings all the same. *)
Example launch_with_number_token :
  outcome (get_with More.discovery More.hinted_launch_request More.settings_with_number)
  = Raised TypeError
  ∧ launch (final (get_with More.discovery More.hinted_launch_request
                     More.settings_with_number)) = Some (Some "xyz")
  ∧ launch More.settings_with_number = Some None.
Proof. vm_compute. repeat split; reflexivity. Qed.





(** The second launch of the scenario, spelled out. *)
Example second_launch_trace :
  trace More.second_launch
  = [ HttpGet "https://ehr.example.org/fhir/.well-known/smart-configuration";
      SetEnviron "SMART_TOKEN" "tok_abc";
      SetHeader "Content-Type" "text/plain";
      Write "Authorization success: Token persisted in $SMART_TOKEN" ].
Proof. vm_compute. reflexivity. Qed.

End LaunchFacts.

(** ** What [urlencode] writes *)

Module QuoteFacts.
Import TextFacts Count.

Lemma count_char_app (c : ascii) (a b : string) :
  count_char c (a +:+ b) = (count_char c a + count_char c b)%nat.
Proof.
  induction a as [|x a IH]; [reflexivity|].
  rewrite append_cons. cbn [count_char]. rewrite IH. lia.
Qed.

Lemma N_of_ascii_bound (c : ascii) : N_of_ascii c < 256.
Proof. destruct c as [[] [] [] [] [] [] [] []]; vm_compute; reflexivity. Qed.

Lemma hex_digit_safe (n : N) : n < 16 → Urllib.always_safe (Urllib.hex_digit n) = true.
Proof.
  intros Hn.
  assert (forallb quoted_hex (map N.of_nat (seq 0 16)) = true) as Hall
    by (vm_compute; reflexivity).
  rewrite forallb_forall in Hall. apply Hall.
  apply in_map_iff. exists (N.to_nat n). split; [apply N2Nat.id|].
  apply in_seq. lia.
Qed.

(** [quote_plus] writes safe characters, [+] and [%] only. *)
Lemma quote_plus_quoted (s : string) : Text.all quoted (Urllib.quote_plus s) = true.
Proof.
  induction s as [|c s IH]; [reflexivity|].
  cbn [Urllib.quote_plus]. unfold Urllib.quote_plus_char.
  destruct (Urllib.always_safe c) eqn:Hsafe.
  - rewrite append_cons. cbn [Text.all]. unfold quoted at 1. rewrite Hsafe. exact IH.
  - destruct (Ascii.eqb c " ").
    + rewrite append_cons. cbn [Text.all]. exact IH.
    + unfold Urllib.percent. rewrite !append_cons. cbn [Text.all].
      pose proof (N_of_ascii_bound c) as Hc.
      unfold quoted at 2 3.
      rewrite !hex_digit_safe.
      * exact IH.
      * apply N.mod_lt. lia.
      * apply N.Div0.div_lt_upper_bound. lia.
Qed.

Lemma count_char_unquoted (c : ascii) (s : string) :
  quoted c = false → Text.all quoted s = true → count_char c s = 0%nat.
Proof.
  intros Hc. induction s as [|a s IH]; [reflexivity|].
  cbn [Text.all count_char]. intros [Ha Hs]%andb_true_iff.
  destruct (Ascii.eqb a c) eqn:Heq.
  - apply Ascii.eqb_eq in Heq. subst a. congruence.
  - rewrite (IH Hs). reflexivity.
Qed.

Lemma quote_value_quoted (v : Urllib.pyval) : Text.all quoted (Urllib.quote_value v) = true.
Proof. destruct v; apply quote_plus_quoted. Qed.

(** One item holds one [=] and no [&]. *)
Lemma encode_item_counts (kv : string * Urllib.pyval) :
  count_char "=" (Urllib.encode_item kv) = 1%nat ∧
  count_char "&" (Urllib.encode_item kv) = 0%nat.
Proof.
  unfold Urllib.encode_item. rewrite !count_char_app.
  rewrite !(count_char_unquoted _ (Urllib.quote_plus (fst kv)))
    by (reflexivity || apply quote_plus_quoted).
  rewrite !(count_char_unquoted _ (Urllib.quote_value (snd kv)))
    by (reflexivity || apply quote_value_quoted).
  split; reflexivity.
Qed.

(** A query of [n] items holds [n] signs [=] and [n - 1] separators [&],
    whatever the keys and the values. *)
Lemma urlencode_counts (query : list (string * Urllib.pyval)) :
  count_char "=" (Urllib.urlencode query) = length query ∧
  count_char "&" (Urllib.urlencode query) = (length query - 1)%nat.
Proof.
  unfold Urllib.urlencode.
  induction query as [|kv [|kv' query] IH]; [split; reflexivity| |].
  - cbn [map Text.join length]. apply encode_item_counts.
  - destruct IH as [IHe IHa].
    change (Text.join "&" (map Urllib.encode_item (kv :: kv' :: query)))
      with (Urllib.encode_item kv +:+ "&" +:+
            Text.join "&" (map Urllib.encode_item (kv' :: query))).
    rewrite !count_char_app, IHe, IHa.
    destruct (encode_item_counts kv) as [-> ->].
    cbn [length count_char]. split; cbn; lia.
Qed.

End QuoteFacts.

(** ** The login handler, further *)

Module LoginFacts.
Import TextFacts Base64Facts QuoteFacts Count SMARTLoginHandler LoginSpec Flow.


(** A query holds no character that [quote_plus] does not write, apart
    from its [=] and [&]. *)
Lemma urlencode_count_other (c : ascii) (query : list (string * Urllib.pyval)) :
  quoted c = false → Ascii.eqb "=" c = false → Ascii.eqb "&" c = false →
  count_char c (Urllib.urlencode query) = 0%nat.
Proof.
  intros Hq He Ha.
  assert (∀ kv, count_char c (Urllib.encode_item kv) = 0%nat) as Hitem.
  { intros kv. unfold Urllib.encode_item. rewrite !count_char_app.
    rewrite (count_char_unquoted _ (Urllib.quote_plus (fst kv)) Hq (quote_plus_quoted _)).
    rewrite (count_char_unquoted _ (Urllib.quote_value (snd kv)) Hq (quote_value_quoted _)).
    cbn [count_char]. by rewrite He. }
  unfold Urllib.urlencode.
  induction query as [|kv [|kv' query] IH]; [reflexivity|apply Hitem|].
  change (Text.join "&" (map Urllib.encode_item (kv :: kv' :: query)))
    with (Urllib.encode_item kv +:+ "&" +:+
          Text.join "&" (map Urllib.encode_item (kv' :: query))).
  rewrite !count_char_app, IH, Hitem. cbn [count_char]. by rewrite Ha.
Qed.

(** What follows the first [?] of a URL whose front part has none. *)
Lemma from_first_question_mark (front rest : string) :
  contains_char "?" front = false →
  Urllib.from (Ascii.eqb "?") (front +:+ "?" +:+ rest) = "?" +:+ rest.
Proof.
  induction front as [|c front IH]; [reflexivity|].
  cbn [contains_char]. intros [Hc Hfront]%orb_false_iff.
  rewrite append_cons. cbn [Urllib.from].
  rewrite Ascii.eqb_sym, Hc. by apply IH.
Qed.

(** X5. Every value that goes into the authorization URL is quoted, the
    launch hint of the request among them. When the authorization endpoint
    has neither a query nor a fragment of its own, the URL the login
    handler redirects to is this endpoint, a [?] and a query of nine
    parameters: what follows the first [?] holds nine signs [=], eight
    separators [&] and no [?] or [#], whatever the settings, the state and
    the hint contain. *)
Theorem login_query_has_nine_parameters (w : World) (h : RequestHandler) (s : Settings)
    (cfg : SMARTConfig) (status : N) (u : string) :
  smart_config s = Some cfg →
  contains_char "?" (auth_url cfg) = false →
  contains_char "#" (auth_url cfg) = false →
  Redirect status u ∈ trace (get w h s) →
  ∃ query,
    u = auth_url cfg +:+ "?" +:+ query ∧
    Urllib.from (Ascii.eqb "?") u = "?" +:+ query ∧
    count_char "=" query = 9%nat ∧ count_char "&" query = 8%nat ∧
    count_char "?" query = 0%nat ∧ count_char "#" query = 0%nat.
Proof.
  intros Hcfg Hq _ Hin. rewrite Login.login_get_cases in Hin. cbv zeta in Hin.
  rewrite Hcfg in Hin.
  destruct (launch s) as [launch_hint|]; cbn [trace] in Hin.
  2:{ apply elem_of_app in Hin as [Hin|Hin].
      - by apply AuthorizationRequest.no_redirect_in_state_cookies in Hin.
      - apply list_elem_of_singleton in Hin. discriminate. }
  apply elem_of_app in Hin as [Hin|Hin].
  { by apply AuthorizationRequest.no_redirect_in_state_cookies in Hin. }
  apply elem_of_cons in Hin as [Hin|Hin]; [discriminate|].
  apply list_elem_of_singleton in Hin. injection Hin as -> ->.
  rewrite <- Login.login_url_spec.
  set (query := Urllib.urlencode _).
  exists query. split; [reflexivity|]. split; [by apply from_first_question_mark|].
  destruct (urlencode_counts
              (headers h s cfg (generate_state w) launch_hint
                 (code_challenge_of (token_urlsafe w)))) as [He Ha].
  split; [exact He|]. split; [exact Ha|].
  split; by apply urlencode_count_other.
Qed.

Lemma login_query_has_nine_parameters_witness :
  ∃ query,
    "https://ehr.example.org/auth/authorize?aud=https%3A%2F%2Fehr.example.org%2Ffhir&state=abc123&launch=None&redirect_uri=http%3A%2F%2Flocalhost%3A8888%2Fsmart%2Foauth_callback&client_id=jupyter&code_challenge=E9Melhoa2OwvFrEMTJguCHaoeK1t8URWbuGJSstw-cM&code_challenge_method=S256&response_type=code&scope=openid+profile+fhirUser+launch+patient%2F%2A.%2A"
    = auth_url Scenario.config +:+ "?" +:+ query ∧
    Urllib.from (Ascii.eqb "?")
      "https://ehr.example.org/auth/authorize?aud=https%3A%2F%2Fehr.example.org%2Ffhir&state=abc123&launch=None&redirect_uri=http%3A%2F%2Flocalhost%3A8888%2Fsmart%2Foauth_callback&client_id=jupyter&code_challenge=E9Melhoa2OwvFrEMTJguCHaoeK1t8URWbuGJSstw-cM&code_challenge_method=S256&response_type=code&scope=openid+profile+fhirUser+launch+patient%2F%2A.%2A"
    = "?" +:+ query ∧
    count_char "=" query = 9%nat ∧ count_char "&" query = 8%nat ∧
    count_char "?" query = 0%nat ∧ count_char "#" query = 0%nat.
Proof.
  apply (login_query_has_nine_parameters Scenario.world Scenario.login_request
           (final Scenario.after_launch) Scenario.config 302).
  - vm_compute. reflexivity.
  - vm_compute. reflexivity.
  - vm_compute. reflexivity.
  - apply list_elem_of_In. vm_compute. right. right. left. reflexivity.
Defined.

(** An authorization endpoint with a query of its own: the handler
    appends [?] and its parameters all the same, so the URL holds two
    [?]. *)
Example endpoint_with_query :
  trace (get Scenario.world Scenario.login_request
           (set_smart_config
              {| fhir_url := Scenario.issuer;
                 auth_url := "https://ehr.example.org/authorize?tenant=a";
                 token_url := "https://ehr.example.org/auth/token" |}
              (final Scenario.after_launch)))
  = [ SetSecureCookie "state_id" "abc123";
      SetSecureCookie "code_verifier" "dBjftJeZ4CVP-mB92K27uhbUJU1p1r_wW1gFWFOEjXk";
      Redirect 302 "https://ehr.example.org/authorize?tenant=a?aud=https%3A%2F%2Fehr.example.org%2Ffhir&state=abc123&launch=None&redirect_uri=http%3A%2F%2Flocalhost%3A8888%2Fsmart%2Foauth_callback&client_id=jupyter&code_challenge=E9Melhoa2OwvFrEMTJguCHaoeK1t8URWbuGJSstw-cM&code_challenge_method=S256&response_type=code&scope=openid+profile+fhirUser+launch+patient%2F%2A.%2A" ].
Proof. vm_compute. reflexivity. Qed.

(** A hint that tries to add a parameter is written as one value. *)
Example hostile_hint_is_quoted :
  Urllib.encode_item ("launch", pyval_of_launch (Some "x&scope=user/*.*#"))
  = "launch=x%26scope%3Duser%2F%2A.%2A%23".
Proof. vm_compute. reflexivity. Qed.

Lemma be_bytes_length (n : nat) (x : N) : length (SHA256.be_bytes n x) = n.
Proof.
  revert x. induction n as [|n IH]; intros x; [reflexivity|].
  cbn [SHA256.be_bytes]. rewrite length_app, IH. cbn. lia.
Qed.

(** A SHA-256 digest has 32 bytes. *)
Lemma digest_length (msg : list N) : length (SHA256.digest msg) = 32%nat.
Proof.
  unfold SHA256.digest. cbv zeta. cbn [map concat].
  rewrite !length_app, !be_bytes_length. reflexivity.
Qed.

Lemma base64url_no_pad_length (l : list N) :
  String.length (Base64UrlSpec.base64url_no_pad l) = ((4 * length l + 2) / 3)%nat.
Proof.
  induction l as [|a|a b|a b c l IH] using list_ind3; try reflexivity.
  cbn [Base64UrlSpec.base64url_no_pad String.length length]. rewrite IH.
  replace (4 * S (S (S (length l))) + 2)%nat with ((4 * length l + 2) + 4 * 3)%nat by lia.
  rewrite Nat.div_add by lia. lia.
Qed.

(** X6. For every code verifier the challenge the login handler sends is
    43 characters long, made of letters, digits, [-] and [_], with no
    padding. *)
Theorem code_challenge_shape (code_verifier : string) :
  String.length (code_challenge_of code_verifier) = 43%nat ∧
  Text.all Urllib.always_safe (code_challenge_of code_verifier) = true ∧
  count_char "=" (code_challenge_of code_verifier) = 0%nat.
Proof.
  rewrite code_challenge_of_spec. unfold Base64UrlSpec.challenge.
  split; [|split].
  - rewrite base64url_no_pad_length, digest_length. reflexivity.
  - apply base64url_no_pad_safe.
  - generalize (SHA256.digest (Text.bytes_of code_verifier)). intros l.
    induction l as [|a|a b|a b c l IH] using list_ind3;
      cbn [Base64UrlSpec.base64url_no_pad count_char];
      rewrite ?sym_not_pad
        by (apply group1 || apply group2 || apply group3 || apply group4
            || apply group2_last || apply group3_last);
      [reflexivity..|exact IH].
Qed.

(** X7. A login before any launch, when the settings hold no
    [smart_config], fails with [KeyError] (status 500) after the state
    cookie has been set: the browser keeps the new [state_id], gets no new
    [code_verifier] and is not redirected. *)
Theorem login_before_launch (w : World) (h : RequestHandler) (s : Settings)
    (jar : gmap string string) :
  smart_config s = None →
  let r := get w h s in
  outcome r = Raised (KeyError "smart_config") ∧
  http_status (KeyError "smart_config") = 500 ∧
  final r = s ∧
  Scenario.cookies_after jar (trace r) !! "state_id" = Some (state_id (generate_state w)) ∧
  Scenario.cookies_after jar (trace r) !! "code_verifier" = jar !! "code_verifier" ∧
  ∀ status u, Redirect status u ∉ trace r.
Proof.
  intros Hcfg. cbv zeta. rewrite Login.login_get_cases. cbv zeta. rewrite Hcfg.
  cbn [outcome final trace]. repeat split.
  - unfold state_cookies.
    destruct (state_next_url (generate_state w)) as [[|c n]|]; cbn [Scenario.cookies_after];
      rewrite ?lookup_insert_ne by done; apply lookup_insert_eq.
  - unfold state_cookies.
    destruct (state_next_url (generate_state w)) as [[|c n]|]; cbn [Scenario.cookies_after];
      rewrite ?lookup_insert_ne by done; reflexivity.
  - intros status u. apply AuthorizationRequest.no_redirect_in_state_cookies.
Qed.

Lemma login_before_launch_witness :
  outcome (get Scenario.world Scenario.login_request Scenario.settings0)
  = Raised (KeyError "smart_config") ∧
  http_status (KeyError "smart_config") = 500 ∧
  final (get Scenario.world Scenario.login_request Scenario.settings0) = Scenario.settings0 ∧
  Scenario.cookies_after ∅
    (trace (get Scenario.world Scenario.login_request Scenario.settings0)) !! "state_id"
  = Some "abc123" ∧
  Scenario.cookies_after ∅
    (trace (get Scenario.world Scenario.login_request Scenario.settings0)) !! "code_verifier"
  = (∅ : gmap string string) !! "code_verifier" ∧
  ∀ status u,
    Redirect status u ∉ trace (get Scenario.world Scenario.login_request Scenario.settings0).
Proof.
  apply (login_before_launch Scenario.world Scenario.login_request Scenario.settings0 ∅).
  reflexivity.
Defined.

End LoginFacts.

(** ** The callback handler, further *)

Module CallbackMore.
Import MonadFacts CallbackSpec CallbackFacts SMARTCallbackHandler LoginSpec Flow QuoteFacts Count.

Lemma cookies_after_app (jar : gmap string string) (tr1 tr2 : list Event) :
  Scenario.cookies_after jar (tr1 ++ tr2)
  = Scenario.cookies_after (Scenario.cookies_after jar tr1) tr2.
Proof.
  revert jar. induction tr1 as [|ev tr1 IH]; intros jar; [reflexivity|].
  destruct ev; cbn [app Scenario.cookies_after]; apply IH.
Qed.

(** The cookies a browser holds after a login that redirected. *)
Lemma cookies_after_login (w : World) (h : RequestHandler) (s : Settings)
    (cfg : SMARTConfig) (launch_hint : option string) (jar : gmap string string) :
  smart_config s = Some cfg →
  launch s = Some launch_hint →
  let jar' := Scenario.cookies_after jar (trace (SMARTLoginHandler.get w h s)) in
  jar' !! "state_id" = Some (state_id (generate_state w)) ∧
  jar' !! "code_verifier" = Some (token_urlsafe w).
Proof.
  intros Hcfg Hl. cbv zeta. rewrite Login.login_get_cases. cbv zeta. rewrite Hcfg, Hl.
  cbn [trace]. rewrite cookies_after_app. cbn [Scenario.cookies_after].
  split; [|apply lookup_insert_eq].
  rewrite lookup_insert_ne by done. unfold state_cookies.
  destruct (state_next_url (generate_state w)) as [[|c n]|]; cbn [Scenario.cookies_after];
    rewrite ?lookup_insert_ne by done; apply lookup_insert_eq.
Qed.




(** X9. A callback that passes validation but comes without the
    [code_verifier] cookie, or meets settings without [smart_config], is
    answered with status 500: the handler raises before it builds the token
    request, sends nothing and leaves the settings. *)
Theorem callback_without_verifier_or_config (w : World) (h : RequestHandler) (s : Settings) :
  first_failing_check h = None →
  get_signed_cookie h "code_verifier" = None ∨ smart_config s = None →
  ∃ e, get w h s = mkRun s [] (Raised e) ∧ http_status e = 500.
Proof.
  intros Hpass Hmiss. rewrite (get_passed _ _ _ Hpass), exchanging_cases. cbv zeta.
  rewrite token_for_code_outcome, token_for_code_trace.
  destruct (get_signed_cookie h "code_verifier") as [v|]; [|eexists; split; reflexivity].
  destruct Hmiss as [Hmiss|Hmiss]; [discriminate|]. rewrite Hmiss.
  eexists. split; reflexivity.
Qed.

Lemma callback_without_verifier_or_config_witness :
  ∃ e, get Scenario.world More.callback_without_verifier (final Scenario.after_login)
       = mkRun (final Scenario.after_login) [] (Raised e) ∧ http_status e = 500.
Proof.
  apply (callback_without_verifier_or_config Scenario.world More.callback_without_verifier
           (final Scenario.after_login)).
  - vm_compute. reflexivity.
  - left. vm_compute. reflexivity.
Defined.



(** A token endpoint that answers with [access_token] set to [null]: the
    callback succeeds, and the slot holds [None] where it held the token
    of the scenario. *)
Example null_token_is_stored :
  smart_token (final Scenario.after_callback) = Some (Json.Str "tok_abc")
  ∧ outcome (get More.null_token_world Scenario.good_callback (final Scenario.after_callback))
    = Returned tt
  ∧ smart_token (final (get More.null_token_world Scenario.good_callback
                          (final Scenario.after_callback))) = Some Json.Null.
Proof. vm_compute. repeat split; reflexivity. Qed.





(** X13. The body of the token request holds five parameters, with five
    signs [=] and four separators [&]: the code of the request and the
    verifier of the cookie are quoted and cannot add a parameter. *)
Theorem token_body_has_five_parameters (h : RequestHandler) (s : Settings)
    (code code_verifier : string) :
  count_char "=" (Urllib.urlencode (data h s code code_verifier)) = 5%nat ∧
  count_char "&" (Urllib.urlencode (data h s code code_verifier)) = 4%nat.
Proof. apply (urlencode_counts (data h s code code_verifier)). Qed.

End CallbackMore.

(** ** The server over time *)

Module ServerFacts.
Import MonadFacts CallbackSpec CallbackFacts LaunchGeneral LaunchFacts LaunchSpec Server Flow.

(** What one served request can do to the settings. *)
Lemma serve_final (r : Served) (s : Settings) :
  final (serve r s) = s ∨
  (kind r = SMARTExtensionApp.AuthHandler ∧
   ∃ cfg, final (serve r s) = launched (handler r) cfg s ∧ truthy (smart_token s) = true) ∨
  (kind r = SMARTExtensionApp.AuthHandler ∧
   ∃ cfg, final (serve r s)
          = set_next_url (uri (request (handler r))) (launched (handler r) cfg s)) ∨
  (kind r = SMARTExtensionApp.CallbackHandler ∧
   is_Some (smart_config s) ∧
   ∃ t, final (serve r s) = set_smart_token t s).
Proof.
  unfold serve. destruct (current_user (handler r)) as [u|] eqn:Hu.
  2:{ destruct (Guard.authenticated_anonymous
                  (match kind r with
                   | SMARTExtensionApp.AuthHandler => get_with (discovery r)
                   | SMARTExtensionApp.LoginHandler => SMARTLoginHandler.get (world r)
                   | SMARTExtensionApp.CallbackHandler => SMARTCallbackHandler.get (world r)
                   end) (handler r) s Hu) as [url ->].
      by left. }
  rewrite (Guard.authenticated_user _ _ _ Hu).
  destruct (kind r).
  - rewrite get_with_cases. cbv zeta.
    destruct (Text.is_empty _); [by left|].
    destruct (discovery_outcome _) as [cfg|e]; [|by left].
    cbn [final]. rewrite answer_final.
    destruct (truthy (smart_token s)) eqn:Ht.
    + right. left. split; [done|]. by exists cfg.
    + right. right. left. split; [done|]. by exists cfg.
  - left. rewrite Login.login_get_cases. cbv zeta.
    destruct (smart_config s); [destruct (launch s)|]; reflexivity.
  - destruct (first_failing_check (handler r)) as [c|] eqn:Hc.
    { rewrite (get_failed _ _ _ _ Hc). by left. }
    rewrite (get_passed _ _ _ Hc), exchanging_cases. cbv zeta.
    pose proof (token_for_code_outcome (world r) (handler r) (received_code (handler r)) s)
      as Hout.
    destruct (outcome (SMARTCallbackHandler.token_for_code _ _ _ s)) as [t|e]; [|by left].
    right. right. right. split; [done|]. split.
    + destruct (get_signed_cookie (handler r) "code_verifier"); [|discriminate].
      destruct (smart_config s); [eauto|discriminate].
    + exists t. destruct (next_url s); reflexivity.
Qed.

Lemma config_kept (rs : list Served) (s : Settings) :
  config_of (serve_all rs s) = config_of s.
Proof.
  revert s. induction rs as [|r rs IH]; intros s; [reflexivity|].
  cbn [serve_all]. rewrite IH.
  destruct (serve_final r s) as [->|[(_ & cfg & -> & _)|[(_ & cfg & ->)|(_ & _ & t & ->)]]];
    reflexivity.
Qed.

(** X14. No request changes the configuration: after any sequence of
    requests the scopes, the client id, the configured redirect URI and the
    defaults are the traits that [initialize_settings] wrote, and the base
    URL and the login URL are those of the server. *)
Theorem configuration_is_kept (self : SMARTExtensionApp.traits) (rs : list Served)
    (s : Settings) :
  config_of (serve_all rs (SMARTExtensionApp.initialize_settings self s))
  = (base_url s, login_url s, SMARTExtensionApp.scopes self,
     SMARTExtensionApp.client_id self, SMARTExtensionApp.redirect_uri self,
     SMARTExtensionApp.default_issuer self, SMARTExtensionApp.default_launch_url self).
Proof. rewrite config_kept. reflexivity. Qed.

Lemma consistent_step (r : Served) (s : Settings) :
  consistent s → consistent (final (serve r s)).
Proof.
  intros [Hcfg Htok].
  destruct (serve_final r s) as [->|[(_ & cfg & -> & Ht)|[(_ & cfg & ->)|(_ & Hc & t & ->)]]].
  - by split.
  - assert (is_Some (smart_token s)) as Hs
      by (destruct (smart_token s); [eauto|discriminate]).
    destruct (Hcfg (Htok Hs)) as [_ Hn].
    split; cbn; eauto.
  - split; cbn; eauto.
  - split; cbn; [exact Hcfg|]. intros _. exact Hc.
Qed.

(** The settings that can arise on a server since its start hang
    together. *)
Lemma reachable_consistent (self : SMARTExtensionApp.traits) (base login : string)
    (rs : list Served) :
  consistent (serve_all rs (startup self base login)).
Proof.
  assert (∀ s, consistent s → consistent (serve_all rs s)) as Hall.
  { induction rs as [|r rs IH]; intros s Hs; [exact Hs|].
    cbn [serve_all]. apply IH, consistent_step, Hs. }
  apply Hall. split; cbn; intros [? ?]; discriminate.
Qed.


(** X16. On a server that has handled any requests since its start, a
    callback whose token exchange returned always ends in its redirect:
    the [next_url] it reads was written by the launch that wrote the
    configuration the exchange used. *)
Theorem callback_never_misses_next_url (self : SMARTExtensionApp.traits)
    (base login : string) (rs : list Served) (w : World) (h : RequestHandler)
    (t : Json.value) :
  let s := serve_all rs (startup self base login) in
  first_failing_check h = None →
  outcome (SMARTCallbackHandler.token_for_code w h (received_code h) s) = Returned t →
  outcome (SMARTCallbackHandler.get w h s) = Returned tt ∧
  ∃ u, next_url s = Some u ∧ Redirect 302 u ∈ trace (SMARTCallbackHandler.get w h s).
Proof.
  cbv zeta. intros Hpass Ht.
  destruct (reachable_consistent self base login rs) as [Hcfg _].
  pose proof (token_for_code_outcome w h (received_code h)
                (serve_all rs (startup self base login))) as Hout.
  rewrite Ht in Hout.
  rewrite (get_passed _ _ _ Hpass), exchanging_cases. cbv zeta. rewrite Ht.
  destruct (get_signed_cookie h "code_verifier"); [|discriminate].
  destruct (smart_config (serve_all rs (startup self base login))) as [cfg|];
    [|discriminate].
  destruct (Hcfg ltac:(eauto)) as [_ [u Hu]]. rewrite Hu. cbn [outcome trace].
  split; [reflexivity|]. exists u. split; [reflexivity|].
  apply elem_of_app. right. apply list_elem_of_here.
Qed.

Lemma callback_never_misses_next_url_witness :
  outcome (SMARTCallbackHandler.get Scenario.world Scenario.good_callback
             (serve_all (take 2 More.scenario_requests)
                (startup SMARTExtensionApp.defaults "/" "/login"))) = Returned tt ∧
  ∃ u, next_url (serve_all (take 2 More.scenario_requests)
                   (startup SMARTExtensionApp.defaults "/" "/login")) = Some u ∧
       Redirect 302 u ∈ trace (SMARTCallbackHandler.get Scenario.world Scenario.good_callback
                                 (serve_all (take 2 More.scenario_requests)
                                    (startup SMARTExtensionApp.defaults "/" "/login"))).
Proof.
  apply (callback_never_misses_next_url SMARTExtensionApp.defaults "/" "/login"
           (take 2 More.scenario_requests) Scenario.world Scenario.good_callback
           (Json.Str "tok_abc")).
  - vm_compute. reflexivity.
  - vm_compute. reflexivity.
Defined.




(** The first user's callback of the scenario, after the other user's
    launch: the code goes to the other issuer, the browser to the other
    launch. *)
Example crossed_flows :
  trace (SMARTCallbackHandler.get Scenario.world Scenario.good_callback
           (final More.after_other_launch))
  = [ Fetch {| req_url := "https://other.example.org/token";
               req_method := "POST";
               req_headers := [("Content-Type", "application/x-www-form-urlencoded")];
               req_body := "client_id=jupyter&grant_type=authorization_code&code=c0de&code_verifier=dBjftJeZ4CVP-mB92K27uhbUJU1p1r_wW1gFWFOEjXk&redirect_uri=http%3A%2F%2Flocalhost%3A8888%2Fsmart%2Foauth_callback" |};
      Redirect 302 "/smart?iss=https%3A%2F%2Fother.example.org%2Ffhir" ].
Proof. vm_compute. reflexivity. Qed.

(** The same callback when the other user's launch came while the token
    of the scenario was held: the code goes to the other issuer, the
    browser to the launch of the scenario. *)
Example crossed_flows_with_token :
  trace (SMARTCallbackHandler.get Scenario.world Scenario.good_callback
           (final (get_with More.other_discovery More.other_launch_request
                     (final Scenario.after_callback))))
  = [ Fetch {| req_url := "https://other.example.org/token";
               req_method := "POST";
               req_headers := [("Content-Type", "application/x-www-form-urlencoded")];
               req_body := "client_id=jupyter&grant_type=authorization_code&code=c0de&code_verifier=dBjftJeZ4CVP-mB92K27uhbUJU1p1r_wW1gFWFOEjXk&redirect_uri=http%3A%2F%2Flocalhost%3A8888%2Fsmart%2Foauth_callback" |};
      Redirect 302 "/smart?iss=https%3A%2F%2Fehr.example.org%2Ffhir" ].
Proof. vm_compute. reflexivity. Qed.

End ServerFacts.

(** ** Paths under the base URL *)

Module PathFacts.
Import TextFacts.

Lemma lstrip_head (c a : ascii) (s r : string) :
  Text.lstrip c s = String a r → Ascii.eqb a c = false.
Proof.
  induction s as [|x s IH]; [discriminate|].
  cbn [Text.lstrip]. destruct (Ascii.eqb x c) eqn:Hx; [exact IH|].
  intros [= <- <-]. exact Hx.
Qed.

Lemma rstrip_head (c a a' : ascii) (s r : string) :
  Text.rstrip c (String a s) = String a' r → a' = a.
Proof.
  cbn [Text.rstrip]. destruct (Text.rstrip c s).
  - destruct (Ascii.eqb a c); [discriminate|]. by intros [= <- <-].
  - by intros [= <- <-].
Qed.

(** A piece stripped of its slashes does not begin with one. *)
Lemma strip_slashes_head (s r : string) (a : ascii) :
  JupyterUtils.strip_slashes s = String a r → Ascii.eqb a "/" = false.
Proof.
  unfold JupyterUtils.strip_slashes.
  destruct (Text.lstrip "/" s) as [|x l] eqn:Hl; [discriminate|].
  intros H. apply rstrip_head in H. subst a. eapply lstrip_head. exact Hl.
Qed.

(** X20. Under a base URL that begins with a slash, the login path the
    launch handler redirects to begins with exactly one slash: the redirect
    stays on the server, whatever slashes the base URL holds. *)
Theorem login_redirect_stays_on_server (base : string) :
  Text.startswith "/" base = true →
  ∃ c rest,
    JupyterUtils.url_path_join [base; login_path] = String "/" (String c rest) ∧
    Ascii.eqb c "/" = false.
Proof.
  intros Hbase. unfold JupyterUtils.url_path_join. cbn [hd]. rewrite Hbase.
  change (Text.last_is "/" (List.last [base; login_path] EmptyString)) with false.
  cbv iota. cbn [map].
  change (JupyterUtils.strip_slashes login_path) with "smart/login".
  rewrite filter_cons.
  destruct (JupyterUtils.strip_slashes base) as [|a r] eqn:Hs.
  - rewrite decide_False by (cbn; discriminate).
    exists "s"%char, "mart/login". split; reflexivity.
  - rewrite decide_True by reflexivity.
    rewrite filter_cons, decide_True by reflexivity. rewrite filter_nil.
    cbn [Text.join]. rewrite !append_cons.
    pose proof (strip_slashes_head _ _ _ Hs) as Ha.
    exists a, (r +:+ "/" +:+ "smart/login"). split; [|exact Ha].
    change ("/" +:+ String a (r +:+ "/" +:+ "smart/login"))
      with (String "/" (String a (r +:+ "/" +:+ "smart/login"))).
    destruct (String.eqb _ "//") eqn:Heq; [|reflexivity].
    apply String.eqb_eq in Heq. injection Heq as Heq _. subst a. discriminate Ha.
Qed.

Lemma login_redirect_stays_on_server_witness :
  ∃ c rest,
    JupyterUtils.url_path_join ["//user//alice//"; login_path] = String "/" (String c rest) ∧
    Ascii.eqb c "/" = false.
Proof.
  apply (login_redirect_stays_on_server "//user//alice//"). reflexivity.
Defined.

End PathFacts.

(** ** Two logins in one browser *)

Module TwoLogins.
Import CallbackSpec CallbackFacts CallbackMore Flow.

(** X21. The state lives in one cookie per browser: after two logins in
    the same browser only the second can be completed. A callback that
    brings back the state of the first login, when the two states differ,
    is refused as a state mismatch with status 400, and no token request is
    sent. *)
Theorem earlier_login_is_superseded (w1 w2 w : World) (h1 h2 hC : RequestHandler)
    (s : Settings) (cfg : SMARTConfig) (launch_hint : option string)
    (jar : gmap string string) (code : string) :
  smart_config s = Some cfg →
  launch s = Some launch_hint →
  signed_cookies hC
  = Scenario.cookies_after
      (Scenario.cookies_after jar (trace (SMARTLoginHandler.get w1 h1 s)))
      (trace (SMARTLoginHandler.get w2 h2 s)) →
  arguments (request hC) !! "error" = None →
  last_argument hC "code" = Some code →
  Text.is_empty code = false →
  last_argument hC "state" = Some (state_id (generate_state w1)) →
  Text.is_empty (state_id (generate_state w1)) = false →
  state_id (generate_state w1) ≠ state_id (generate_state w2) →
  SMARTCallbackHandler.get w hC s
  = mkRun s [] (Raised (HTTPError 400 "Error: state received from FHIR server does not match")).
Proof.
  intros Hcfg Hl Hjar Herr Hcode Hc Hstate Hs Hne.
  destruct (cookies_after_login w2 h2 s cfg launch_hint
              (Scenario.cookies_after jar (trace (SMARTLoginHandler.get w1 h1 s))) Hcfg Hl)
    as [Hsid _].
  cbv zeta in Hsid. rewrite <- Hjar in Hsid.
  assert (first_failing_check hC = Some StateParamDiffers) as Hcheck.
  { unfold first_failing_check, error_param_present, param_missing, stored_state_missing,
      state_param_differs, get_signed_cookie.
    rewrite Herr, Hcode, Hc, Hstate, Hs, Hsid.
    rewrite bool_decide_eq_false_2 by (intros [? ?]; discriminate).
    rewrite bool_decide_eq_false_2 by discriminate.
    rewrite bool_decide_eq_true_2 by congruence.
    reflexivity. }
  rewrite (get_failed _ _ _ _ Hcheck). reflexivity.
Qed.

Lemma earlier_login_is_superseded_witness :
  SMARTCallbackHandler.get Scenario.world More.superseded_callback (final Scenario.after_login)
  = mkRun (final Scenario.after_login) []
      (Raised (HTTPError 400 "Error: state received from FHIR server does not match")).
Proof.
  apply (earlier_login_is_superseded Scenario.world More.second_login_world Scenario.world
           Scenario.login_request Scenario.login_request More.superseded_callback
           (final Scenario.after_login) Scenario.config None ∅ "c0de").
  - vm_compute. reflexivity.
  - vm_compute. reflexivity.
  - reflexivity.
  - vm_compute. reflexivity.
  - vm_compute. reflexivity.
  - reflexivity.
  - vm_compute. reflexivity.
  - reflexivity.
  - vm_compute. discriminate.
Defined.

End TwoLogins.
